(** * peering-manager: the REST action views of [peering/api/views.py]

    The views are thin controllers: each one fetches a model instance,
    calls one or two model methods and maps what they return to an HTTP
    response or to a raised [ServiceUnavailable].  The embedding keeps that
    shape.  A view is a program in a small free monad whose operations are
    the calls the view makes on its collaborators (the ORM, the permission
    backend, the model methods, the NAPALM gateway); running a program
    against a handler for those calls yields the outcome, the final world
    and the trace of the calls that were made, in order. *)

From stdpp Require Import base strings list gmap.
From Stdlib Require Import ZArith Lia.

Local Open Scope Z_scope.
Local Open Scope string_scope.
Local Open Scope list_scope.

(** ** Python values *)

(** The values that cross the boundary between the views and the model
    layer.  Dictionaries keep insertion order, as Python's do. *)
#[warnings="-register-all"]
Inductive pyval : Type :=
| PNone
| PBool (b : bool)
| PInt (z : Z)
| PStr (s : string)
| PList (l : list pyval)
| PTuple (l : list pyval)
| PDict (d : list (string * pyval)).

(** Python's truth protocol ([bool(x)], used by [not] and [if]). *)
Class Truthy (A : Type) := truthy : A → bool.

Definition is_nil {A} (l : list A) : bool :=
  match l with [] => true | _ => false end.

Definition is_empty_string (s : string) : bool :=
  match s with EmptyString => true | _ => false end.

#[export] Instance pyval_truthy : Truthy pyval := λ v,
  match v with
  | PNone => false
  | PBool b => b
  | PInt z => negb (Z.eqb z 0)
  | PStr s => negb (is_empty_string s)
  | PList l | PTuple l => negb (is_nil l)
  | PDict d => negb (is_nil d)
  end.

#[export] Instance string_truthy : Truthy string := λ s,
  negb (is_empty_string s).

(** [None] is false; anything else follows its own protocol. *)
#[export] Instance option_truthy {A} `{Truthy A} : Truthy (option A) := λ o,
  match o with
  | None => false
  | Some a => truthy a
  end.

(** Python's [not]. *)
Definition py_not {A} `{Truthy A} (a : A) : bool := negb (truthy a).

(** ** Exceptions and responses *)

Inductive exn : Type :=
| ServiceUnavailable (detail : string)   (* utils.api.ServiceUnavailable *)
| Http404                                (* raised by get_object *)
| TypeError
| ValueError
| IndexError
| KeyError
| AttributeError
| Error (name : string).                 (* anything a collaborator raises *)

(** [rest_framework.status] *)
Definition HTTP_200_OK : Z := 200.
Definition HTTP_404_NOT_FOUND : Z := 404.

Inductive HttpResponse : Type :=
| Response (data : pyval) (status : Z)
| HttpResponseForbidden.

(** [x[i]] for a literal, non-negative index [i]. *)
Definition getitem (v : pyval) (i : nat) : pyval + exn :=
  match v with
  | PList l | PTuple l =>
      match l !! i with
      | Some x => inl x
      | None => inr IndexError
      end
  | PStr s =>
      match String.get i s with
      | Some c => inl (PStr (String c EmptyString))
      | None => inr IndexError
      end
  | PDict _ => inr KeyError
  | PNone | PBool _ | PInt _ => inr TypeError
  end.

Fixpoint chars (s : string) : list pyval :=
  match s with
  | EmptyString => []
  | String c s' => PStr (String c EmptyString) :: chars s'
  end.

(** What iterating over a value yields, when it can be iterated over. *)
Definition py_iter (v : pyval) : option (list pyval) :=
  match v with
  | PList l | PTuple l => Some l
  | PStr s => Some (chars s)
  | PDict d => Some ((λ kv, PStr kv.1) <$> d)
  | PNone | PBool _ | PInt _ => None
  end.

(** [a, b = v] *)
Definition unpack2 (v : pyval) : (pyval * pyval) + exn :=
  match py_iter v with
  | None => inr TypeError
  | Some [a; b] => inl (a, b)
  | Some _ => inr ValueError
  end.

(** ** Data model: what the views read from the model instances *)

Module Router.
Record t : Type := { pk : Z; platform : option string }.
End Router.

Module InternetExchange.
Record t : Type := { pk : Z; router : option Router.t }.
End InternetExchange.

Module BGPGroup.
Record t : Type := { pk : Z }.
End BGPGroup.

Module AutonomousSystem.
Record t : Type := {
  pk : Z;
  asn : Z;
  name : string;
  irr_as_set : option string;
  peeringdb_record : option Z
}.
End AutonomousSystem.

Module DirectPeeringSession.
Record t : Type := { pk : Z; router : option Router.t }.
End DirectPeeringSession.

Module InternetExchangePeeringSession.
Record t : Type := { pk : Z; internet_exchange : InternetExchange.t }.
End InternetExchangePeeringSession.

(** Model instances define neither [__bool__] nor [__len__]: always true. *)
#[export] Instance router_truthy : Truthy Router.t := λ _, true.

Record User : Type := { username : string }.

Record Request : Type := { method : string; user : User }.

(** [rest_framework.permissions.SAFE_METHODS] *)
Definition SAFE_METHODS : list string := ["GET"; "HEAD"; "OPTIONS"].

(** [x in xs] on a tuple of strings. *)
Definition py_in (x : string) (xs : list string) : bool :=
  existsb (String.eqb x) xs.

(** ** The calls a view makes *)

(** The [queryset] attribute of a view set chooses what [get_object]
    returns. *)
Inductive manager : Type :=
| AutonomousSystem_objects
| BGPGroup_objects
| DirectPeeringSession_objects
| InternetExchange_objects
| InternetExchangePeeringSession_objects
| Router_objects.

Definition instance (q : manager) : Type :=
  match q with
  | AutonomousSystem_objects => AutonomousSystem.t
  | BGPGroup_objects => BGPGroup.t
  | DirectPeeringSession_objects => DirectPeeringSession.t
  | InternetExchange_objects => InternetExchange.t
  | InternetExchangePeeringSession_objects => InternetExchangePeeringSession.t
  | Router_objects => Router.t
  end.

(** Receivers of methods that several models share. *)
Inductive scope : Type :=
| GroupScope (g : BGPGroup.t)
| ExchangeScope (ix : InternetExchange.t).

Inductive target : Type :=
| RouterTarget (r : Router.t)
| ExchangeTarget (ix : InternetExchange.t).

Inductive session : Type :=
| DirectSession (s : DirectPeeringSession.t)
| ExchangeSession (s : InternetExchangePeeringSession.t).

Inductive call : Type → Type :=
| get_object (q : manager) (pk : Z) : call (instance q)
| has_perm (u : User) (perm : string) : call bool
| synchronize_with_peeringdb (a : AutonomousSystem.t) : call pyval
| find_potential_ix_peering_sessions (a : AutonomousSystem.t) : call pyval
| poll_peering_sessions (s : scope) : call pyval
| get_available_peers (ix : InternetExchange.t) : call pyval
| PeerRecordSerializer_data (peers : pyval) : call pyval
| import_peering_sessions_from_router (ix : InternetExchange.t) : call pyval
| generate_configuration (t : target) : call pyval
| set_napalm_configuration (r : Router.t) (config : pyval) (commit : bool)
  : call pyval
| clear_bgp_session (r : Router.t) (s : session) : call pyval.

(** ** Programs *)

Inductive prog (A : Type) : Type :=
| Ret (a : A)
| Raise (e : exn)
| Call {X : Type} (c : call X) (k : X → prog A).

Arguments Ret {A} a.
Arguments Raise {A} e.
Arguments Call {A X} c k.

Fixpoint prog_bind {A B} (f : A → prog B) (p : prog A) : prog B :=
  match p with
  | Ret a => f a
  | Raise e => Raise e
  | Call c k => Call c (λ x, prog_bind f (k x))
  end.

#[export] Instance prog_mret : MRet prog := @Ret.
#[export] Instance prog_mbind : MBind prog := @prog_bind.

Definition invoke {X} (c : call X) : prog X := Call c Ret.

(** A value that is either a result or an exception to propagate. *)
Definition lift {A} (r : A + exn) : prog A :=
  match r with
  | inl a => Ret a
  | inr e => Raise e
  end.

(** The receiver of a method call: looking a method up on [None] raises. *)
Definition receiver {A} (o : option A) : prog A :=
  match o with
  | Some a => Ret a
  | None => Raise AttributeError
  end.

(** ** The views

    One module per view set, one definition per action, in the order of
    the source.  [request] and [pk] are the arguments of the action;
    [self.get_object()] is [get_object] on the view set's [queryset]. *)

Definition OK (data : pyval) : HttpResponse := Response data HTTP_200_OK.

Module AutonomousSystemViewSet.
Definition queryset : manager := AutonomousSystem_objects.

Definition synchronize_with_peeringdb (request : Request) (pk : Z)
  : prog HttpResponse :=
  obj ← invoke (get_object queryset pk);
  success ← invoke (synchronize_with_peeringdb obj);
  mret (if truthy success
        then OK (PDict [("status", PStr "synchronized")])
        else Response (PDict [("error", PStr "peeringdb record not found")])
                      HTTP_404_NOT_FOUND).

Definition find_potential_ix_peering_sessions (request : Request) (pk : Z)
  : prog HttpResponse :=
  obj ← invoke (get_object queryset pk);
  _ ← invoke (find_potential_ix_peering_sessions obj);
  mret (OK (PDict [("status", PStr "done")])).
End AutonomousSystemViewSet.

Module BGPGroupViewSet.
Definition queryset : manager := BGPGroup_objects.

Definition poll_peering_sessions (request : Request) (pk : Z)
  : prog HttpResponse :=
  obj ← invoke (get_object queryset pk);
  success ← invoke (poll_peering_sessions (GroupScope obj));
  if py_not success
  then Raise (ServiceUnavailable "Cannot update peering session states.")
  else mret (OK (PDict [("status", PStr "success")])).
End BGPGroupViewSet.

Module DirectPeeringSessionViewSet.
Definition queryset : manager := DirectPeeringSession_objects.

Definition clear (request : Request) (pk : Z) : prog HttpResponse :=
  obj ← invoke (get_object queryset pk);
  let router := DirectPeeringSession.router obj in
  if py_not router
  then Raise (ServiceUnavailable "No router available to clear session")
  else
    r ← receiver router;
    obj' ← invoke (get_object queryset pk);
    result ← invoke (clear_bgp_session r (DirectSession obj'));
    mret (OK (PDict [("result", result)])).
End DirectPeeringSessionViewSet.

Module InternetExchangeViewSet.
Definition queryset : manager := InternetExchange_objects.

Definition available_peers (request : Request) (pk : Z) : prog HttpResponse :=
  obj ← invoke (get_object queryset pk);
  available_peers ← invoke (get_available_peers obj);
  if py_not available_peers
  then Raise (ServiceUnavailable "No peers found.")
  else
    data ← invoke (PeerRecordSerializer_data available_peers);
    mret (OK (PDict [("available-peers", data)])).

Definition import_peering_sessions (request : Request) (pk : Z)
  : prog HttpResponse :=
  obj ← invoke (get_object queryset pk);
  result ← invoke (import_peering_sessions_from_router obj);
  if py_not result
  then Raise (ServiceUnavailable "Cannot import peering sessions from router.")
  else
    r0 ← lift (getitem result 0);
    r1 ← lift (getitem result 1);
    r2 ← lift (getitem result 2);
    mret (OK (PDict [("autonomous-system-count", r0);
                     ("peering-session-count", r1);
                     ("ignored-autonomous-systems", r2)])).

Definition configure_router (request : Request) (pk : Z) : prog HttpResponse :=
  internet_exchange ← invoke (get_object queryset pk);
  if py_not (InternetExchange.router internet_exchange)
  then Raise (ServiceUnavailable "No router available.")
  else
    (* Check user permission first *)
    allowed ← invoke (has_perm (user request)
                        "peering.deploy_configuration_internetexchange");
    if negb allowed then mret HttpResponseForbidden
    else
      (* Commit changes only if not using a GET request *)
      r ← receiver (InternetExchange.router internet_exchange);
      config ← invoke (generate_configuration (ExchangeTarget internet_exchange));
      result ← invoke (set_napalm_configuration r config
                         (negb (py_in (method request) SAFE_METHODS)));
      '(error, changes) ← lift (unpack2 result);
      mret (OK (PDict [("changed", PBool (py_not error));
                       ("changes", changes);
                       ("error", error)])).

Definition poll_peering_sessions (request : Request) (pk : Z)
  : prog HttpResponse :=
  obj ← invoke (get_object queryset pk);
  success ← invoke (poll_peering_sessions (ExchangeScope obj));
  if py_not success
  then Raise (ServiceUnavailable "Cannot update peering session states.")
  else mret (OK (PDict [("status", PStr "success")])).
End InternetExchangeViewSet.

Module InternetExchangePeeringSessionViewSet.
Definition queryset : manager := InternetExchangePeeringSession_objects.

Definition clear (request : Request) (pk : Z) : prog HttpResponse :=
  obj ← invoke (get_object queryset pk);
  let router :=
    InternetExchange.router
      (InternetExchangePeeringSession.internet_exchange obj) in
  if py_not router
  then Raise (ServiceUnavailable "No router available to clear session")
  else
    r ← receiver router;
    obj' ← invoke (get_object queryset pk);
    result ← invoke (clear_bgp_session r (ExchangeSession obj'));
    mret (OK (PDict [("result", result)])).
End InternetExchangePeeringSessionViewSet.

Module RouterViewSet.
Definition queryset : manager := Router_objects.

Definition configure (request : Request) (pk : Z) : prog HttpResponse :=
  router ← invoke (get_object queryset pk);
  (* Check if the router runs on a supported platform *)
  if py_not (Router.platform router)
  then Raise (ServiceUnavailable "Unsupported router platform.")
  else
    (* Check user permission first *)
    allowed ← invoke (has_perm (user request)
                        "peering.deploy_configuration_router");
    if negb allowed then mret HttpResponseForbidden
    else
      (* Commit changes only if not using a GET request *)
      config ← invoke (generate_configuration (RouterTarget router));
      result ← invoke (set_napalm_configuration router config
                         (negb (py_in (method request) SAFE_METHODS)));
      '(error, changes) ← lift (unpack2 result);
      mret (OK (PDict [("changed", PBool (py_not error));
                       ("changes", changes);
                       ("error", error)])).
End RouterViewSet.

(** ** Running a view *)

Inductive outcome (A : Type) : Type :=
| Returned (a : A)
| Raised (e : exn).

Arguments Returned {A} a.
Arguments Raised {A} e.

(** What the collaborators do: each call, in a world, returns or raises,
    and leaves a world behind. *)
Definition handler (W : Type) : Type := ∀ X, call X → W → (X + exn) * W.

(** One entry of the trace: the call and how it ended. *)
Inductive event : Type :=
| Event {X : Type} (c : call X) (r : X + exn).

Record result (W A : Type) : Type := {
  out : outcome A;
  world : W;
  trace : list event
}.

Arguments out {W A} r.
Arguments world {W A} r.
Arguments trace {W A} r.

Fixpoint run {W A} (h : handler W) (p : prog A) (w : W) : result W A :=
  match p with
  | Ret a => {| out := Returned a; world := w; trace := [] |}
  | Raise e => {| out := Raised e; world := w; trace := [] |}
  | Call c k =>
      match h _ c w with
      | (inl x, w') =>
          let r := run h (k x) w' in
          {| out := out r; world := world r;
             trace := Event c (inl x) :: trace r |}
      | (inr e, w') =>
          {| out := Raised e; world := w'; trace := [Event c (inr e)] |}
      end
  end.

(** The pushes to the device that a trace contains, as (router,
    configuration, commit) triples, in order. *)
Definition push_of (e : event) : option (Router.t * pyval * bool) :=
  match e with
  | Event c _ =>
      match c with
      | set_napalm_configuration r config commit => Some (r, config, commit)
      | _ => None
      end
  end.

Definition pushes (t : list event) : list (Router.t * pyval * bool) :=
  omap push_of t.

(** The session resets that a trace contains. *)
Definition clear_of (e : event) : option (Router.t * session) :=
  match e with
  | Event c _ =>
      match c with
      | clear_bgp_session r s => Some (r, s)
      | _ => None
      end
  end.

Definition clears (t : list event) : list (Router.t * session) :=
  omap clear_of t.

(** The configuration steps that a trace contains: each rendering, with
    how it ended, and each push. *)
Inductive step : Type :=
| Generation (t : target) (r : pyval + exn)
| Push (rt : Router.t) (config : pyval) (commit : bool) (r : pyval + exn).

Definition step_of (e : event) : option step :=
  match e with
  | Event c r =>
      match c in call X return X + exn → option step with
      | generate_configuration t => λ r, Some (Generation t r)
      | set_napalm_configuration rt config commit =>
          λ r, Some (Push rt config commit r)
      | _ => λ _, None
      end r
  end.

Definition steps (t : list event) : list step := omap step_of t.

(** [d[key]] on a dictionary, for reading a response body. *)
Definition dict_get (key : string) (v : pyval) : option pyval :=
  match v with
  | PDict d => snd <$> List.find (λ kv, String.eqb key kv.1) d
  | _ => None
  end.

(** The two actions that deploy a configuration. *)
Definition deploy_entry_points : list (Request → Z → prog HttpResponse) :=
  [InternetExchangeViewSet.configure_router; RouterViewSet.configure].

(** ** A small installation

    Canned collaborators for trying the views on concrete requests: two
    routers (one without a platform), three exchanges (the second without
    a router, the third on the router without a platform), and a device
    and a template that can each be made to fail. *)
Module Scenario.

Record knobs : Type := {
  template_broken : bool;
  device_reachable : bool;
  device_in_sync : bool
}.

Definition calm : knobs :=
  {| template_broken := false; device_reachable := true;
     device_in_sync := false |}.
Definition in_sync : knobs :=
  {| template_broken := false; device_reachable := true;
     device_in_sync := true |}.
Definition broken_template : knobs :=
  {| template_broken := true; device_reachable := true;
     device_in_sync := false |}.
Definition device_down : knobs :=
  {| template_broken := false; device_reachable := false;
     device_in_sync := false |}.

Definition junos : Router.t :=
  {| Router.pk := 1; Router.platform := Some "junos" |}.
Definition bare : Router.t :=
  {| Router.pk := 2; Router.platform := Some "" |}.

Definition ix1 : InternetExchange.t :=
  {| InternetExchange.pk := 1; InternetExchange.router := Some junos |}.
Definition ix2 : InternetExchange.t :=
  {| InternetExchange.pk := 2; InternetExchange.router := None |}.
Definition ix3 : InternetExchange.t :=
  {| InternetExchange.pk := 3; InternetExchange.router := Some bare |}.

Definition group1 : BGPGroup.t := {| BGPGroup.pk := 1 |}.

Definition as64501 : AutonomousSystem.t :=
  {| AutonomousSystem.pk := 1; AutonomousSystem.asn := 64501;
     AutonomousSystem.name := "Example Net";
     AutonomousSystem.irr_as_set := None;
     AutonomousSystem.peeringdb_record := None |}.

Definition direct1 : DirectPeeringSession.t :=
  {| DirectPeeringSession.pk := 1; DirectPeeringSession.router := Some junos |}.
Definition direct2 : DirectPeeringSession.t :=
  {| DirectPeeringSession.pk := 2; DirectPeeringSession.router := None |}.

Definition xsession1 : InternetExchangePeeringSession.t :=
  {| InternetExchangePeeringSession.pk := 1;
     InternetExchangePeeringSession.internet_exchange := ix1 |}.
Definition xsession2 : InternetExchangePeeringSession.t :=
  {| InternetExchangePeeringSession.pk := 2;
     InternetExchangePeeringSession.internet_exchange := ix2 |}.

Definition pick {A} (pk : Z) (rows : list (Z * A)) : A + exn :=
  match List.find (λ row, Z.eqb pk row.1) rows with
  | Some row => inl row.2
  | None => inr Http404
  end.

Definition table (q : manager) (pk : Z) : instance q + exn :=
  match q with
  | AutonomousSystem_objects => pick pk [(1, as64501)]
  | BGPGroup_objects => pick pk [(1, group1)]
  | DirectPeeringSession_objects => pick pk [(1, direct1); (2, direct2)]
  | InternetExchange_objects => pick pk [(1, ix1); (2, ix2); (3, ix3)]
  | InternetExchangePeeringSession_objects =>
      pick pk [(1, xsession1); (2, xsession2)]
  | Router_objects => pick pk [(1, junos); (2, bare)]
  end.

Definition answer (k : knobs) {X} (c : call X) : X + exn :=
  match c in call X return X + exn with
  | get_object q pk => table q pk
  | has_perm u _ => inl (String.eqb (username u) "admin")
  | synchronize_with_peeringdb _ => inl (PBool true)
  | find_potential_ix_peering_sessions _ => inl PNone
  | poll_peering_sessions _ => inl (PBool (device_reachable k))
  | get_available_peers ix =>
      inl (PList (if Z.eqb (InternetExchange.pk ix) 1
                  then [PInt 64501; PInt 64502] else []))
  | PeerRecordSerializer_data peers => inl peers
  | import_peering_sessions_from_router _ =>
      inl (if device_reachable k
           then PTuple [PInt 1; PInt 2; PList [PInt 64999]]
           else PBool false)
  | generate_configuration _ =>
      if template_broken k then inr (Error "RenderError")
      else inl (PStr "router bgp 64500")
  | set_napalm_configuration _ _ _ =>
      inl (if negb (device_reachable k)
           then PTuple [PStr "cannot connect to device"; PNone]
           else if device_in_sync k
           then PTuple [PNone; PStr EmptyString]
           else PTuple [PNone; PStr "+ neighbor 192.0.2.10"])
  | clear_bgp_session _ _ => inl (PBool (device_reachable k))
  end.

Definition handle : handler knobs := λ X c k, (answer k c, k).

Definition admin : User := {| username := "admin" |}.
Definition guest : User := {| username := "guest" |}.

Definition GET : Request := {| method := "GET"; user := admin |}.
Definition POST : Request := {| method := "POST"; user := admin |}.

End Scenario.

(** ** The model layer behind two of the actions

    [peering/models.py] is not among the sources, so the two model methods
    whose effect on the stored data matters here are written from the
    specification: synchronisation with the registry (component 4.2 and
    entry point [synchronizeWithRegistry]) and discovery of potential
    sessions (component 4.3 (a)). *)
Module Model.

(** Modelled from the spec: the registry's record of a network, missing
    with [peeringdb]; it carries what section 3 lists as held by an
    autonomous system and linked to the registry. *)
Record NetworkRecord : Type := {
  net_id : Z;
  net_name : string;
  net_irr_as_set : option string
}.

(** Modelled from the spec: one (exchange, peer IP) pair that the registry
    reports for a network, missing with [peeringdb]. *)
Record Presence : Type := {
  exchange : Z;
  address : string
}.

(** Modelled from the spec: the observed state of a session, missing with
    [peering.models]; section 3 lists the six states. *)
Inductive BGPState : Type :=
| idle | connect | active | opensent | openconfirm | established.

(** Modelled from the spec: a row of the table of exchange sessions, missing
    with [peering.models]; section 3 gives the fields, and the key of a row
    is (exchange, peer AS, peer IP). *)
Record SessionRow : Type := {
  session_exchange : Z;
  session_asn : Z;
  session_ip : string;
  enabled : bool;
  bgp_state : BGPState
}.

(** Modelled from the spec: the key of an exchange session, "(exchange,
    peer AS, IP)", missing with [peering.models]. *)
Definition key : Type := Z * Z * string.

Definition session_key (row : SessionRow) : key :=
  (session_exchange row, session_asn row, session_ip row).

(** Modelled from the spec: the stored state the two operations read and
    write, missing with [peering.models] and [peeringdb]: the tables of
    autonomous systems and of configured exchanges by primary key, the
    table of exchange sessions, and the registry (network records and
    reported presences by AS number). *)
Record World : Type := {
  autonomous_systems : gmap Z AutonomousSystem.t;
  internet_exchanges : gmap Z InternetExchange.t;
  sessions : list SessionRow;
  networks : gmap Z NetworkRecord;
  presences : gmap Z (list Presence)
}.

(** Modelled from the spec: the refresh of the registry-linked fields of
    an autonomous system, missing with [peering.models]. *)
Definition refresh (n : NetworkRecord) (a : AutonomousSystem.t)
  : AutonomousSystem.t :=
  {| AutonomousSystem.pk := AutonomousSystem.pk a;
     AutonomousSystem.asn := AutonomousSystem.asn a;
     AutonomousSystem.name := net_name n;
     AutonomousSystem.irr_as_set := net_irr_as_set n;
     AutonomousSystem.peeringdb_record := Some (net_id n) |}.

(** Modelled from the spec: storing an autonomous system under its primary
    key, missing with [peering.models]. *)
Definition save (a : AutonomousSystem.t) (w : World) : World :=
  {| autonomous_systems :=
       <[AutonomousSystem.pk a := a]> (autonomous_systems w);
     internet_exchanges := internet_exchanges w;
     sessions := sessions w;
     networks := networks w;
     presences := presences w |}.

(** Modelled from the spec: the registry's [LookupNetwork], missing with
    [peeringdb]: "NetworkRecord | NotFound". *)
Definition LookupNetwork (asn : Z) (w : World) : option NetworkRecord :=
  networks w !! asn.

(** Modelled from the spec: [AutonomousSystem.synchronize_with_peeringdb],
    missing with [peering.models]: "refreshes an AutonomousSystem's
    registry-linked fields; success=false if no registry record exists". *)
Definition synchronizeWithRegistry (a : AutonomousSystem.t) (w : World)
  : pyval * World :=
  match LookupNetwork (AutonomousSystem.asn a) w with
  | None => (PBool false, w)
  | Some n => (PBool true, save (refresh n a) w)
  end.

(** Modelled from the spec: the (exchange, peer IP) pairs "reported by the
    registry" for a network, missing with [peeringdb]; none for a network
    it does not know. *)
Definition reported (asn : Z) (w : World) : list Presence :=
  default [] (presences w !! asn).

(** Modelled from the spec: the registry's [CommonExchanges], missing with
    [peeringdb]: "intersecting the operator's configured exchanges with the
    peer's registry-reported exchange memberships". *)
Definition CommonExchanges (asn : Z) (w : World) : gset Z :=
  dom (internet_exchanges w) ∩ list_to_set (exchange <$> reported asn w).

(** Modelled from the spec: a candidate session, missing with
    [peering.models]: "administrative state disabled by default (never
    auto-enabled) and observed state idle". *)
Definition candidate (asn : Z) (p : Presence) : SessionRow :=
  {| session_exchange := exchange p; session_asn := asn;
     session_ip := address p; enabled := false; bgp_state := idle |}.

(** Modelled from the spec: the discovery loop, missing with
    [peering.models]: a candidate for every reported pair "that has no
    existing InternetExchangePeeringSession with that exact (exchange,
    peer-AS, peer-IP) key", looked up in the table as it stands when the
    pair is reached. *)
Fixpoint discover (asn : Z) (pairs : list Presence)
    (rows : list SessionRow) : list SessionRow :=
  match pairs with
  | [] => rows
  | p :: pairs' =>
      if bool_decide (session_key (candidate asn p) ∈ session_key <$> rows)
      then discover asn pairs' rows
      else discover asn pairs' (rows ++ [candidate asn p])
  end.

(** Modelled from the spec: [AutonomousSystem.
    find_potential_ix_peering_sessions], missing with [peering.models]
    (component 4.3 (a)): the reported pairs on the exchanges shared with
    the peer go through the discovery loop. *)
Definition FindPotentialSessions (a : AutonomousSystem.t) (w : World)
  : pyval * World :=
  let asn := AutonomousSystem.asn a in
  let pairs :=
    filter (λ p, exchange p ∈ CommonExchanges asn w) (reported asn w) in
  (PNone,
   {| autonomous_systems := autonomous_systems w;
      internet_exchanges := internet_exchanges w;
      sessions := discover asn pairs (sessions w);
      networks := networks w;
      presences := presences w |}).

(** Modelled from the spec: [get_object] on the table of autonomous
    systems, missing with [utils.api]: the row with that primary key, or
    "not found". *)
Definition get_autonomous_system (pk : Z) (w : World)
  : (AutonomousSystem.t + exn) * World :=
  match autonomous_systems w !! pk with
  | Some a => (inl a, w)
  | None => (inr Http404, w)
  end.

(** Modelled from the spec: the model layer as a handler of the calls the
    views make, missing with [peering.models]: the three calls above, and
    [rest] for all the others. *)
Definition handle (rest : handler World) : handler World := λ X c,
  match c in call X return World → (X + exn) * World with
  | get_object q pk =>
      match q return World → (instance q + exn) * World with
      | AutonomousSystem_objects => get_autonomous_system pk
      | q' => rest _ (get_object q' pk)
      end
  | synchronize_with_peeringdb a => λ w,
      let '(v, w') := synchronizeWithRegistry a w in (inl v, w')
  | find_potential_ix_peering_sessions a => λ w,
      let '(v, w') := FindPotentialSessions a w in (inl v, w')
  | c' => rest _ c'
  end.

(** The second scenario of the specification: the registry knows AS 64501
    and reports it on exchange 1 at 192.0.2.10 and on an exchange that is
    not configured here; no session is recorded yet. *)
Definition installation : World :=
  {| autonomous_systems := {[ 1 := Scenario.as64501 ]};
     internet_exchanges := {[ 1 := Scenario.ix1 ]};
     sessions := [];
     networks :=
       {[ 64501 := {| net_id := 20; net_name := "Example Network";
                      net_irr_as_set := Some "AS-EXAMPLE" |} ]};
     presences :=
       {[ 64501 := [ {| exchange := 1; address := "192.0.2.10" |};
                     {| exchange := 9; address := "198.51.100.7" |} ] ]} |}.

(** The calls the model does not cover, answered as in the small
    installation. *)
Definition rest : handler World := λ X c w, (Scenario.answer Scenario.calm c, w).

(** Modelled from the spec: the [success] of the result of
    [synchronizeWithRegistry], read off the response the action builds. *)
Definition success (response : HttpResponse) : bool :=
  match response with
  | Response _ status => Z.eqb status HTTP_200_OK
  | HttpResponseForbidden => false
  end.

End Model.

(** ** More of what a trace contains *)

(** The permission checks that a trace contains, with their answers. *)
Definition perm_check_of (e : event) : option (User * string * (bool + exn)) :=
  match e with
  | Event c r =>
      match c in call X return X + exn → option (User * string * (bool + exn))
      with
      | has_perm u perm => λ r, Some (u, perm, r)
      | _ => λ _, None
      end r
  end.

Definition perm_checks (t : list event)
  : list (User * string * (bool + exn)) := omap perm_check_of t.

(** ** The other actions of the file

    [RouterViewSet.configuration] makes calls of the family above.  The
    remaining actions call other model methods, read [request.data] and
    read the [encrypted_password] column of a session; their calls extend
    the family, and their programs and runs are those above over the
    extended family. *)

Module Template.
Record t : Type := { pk : Z }.
End Template.

(** A session instance together with its [encrypted_password] column. *)
Record WithPassword (A : Type) : Type := {
  instance_of : A;
  encrypted_password : pyval
}.

Arguments instance_of {A} w.
Arguments encrypted_password {A} w.

(** [request], with the parsed body. *)
Record DataRequest : Type := { request_of : Request; data : pyval }.

Inductive more : Type → Type :=
| core {X : Type} (c : call X) : more X
| get_object_with_password (q : manager) (pk : Z)
  : more (WithPassword (instance q))
| encrypt_password {q : manager} (obj : WithPassword (instance q))
    (platform : pyval) : more pyval
| Template_objects_get (pk : Z) : more Template.t
| generate_email (a : AutonomousSystem.t) (template : Template.t) : more pyval
| get_irr_as_set_prefixes (a : AutonomousSystem.t) : more pyval
| get_common_internet_exchanges (a : AutonomousSystem.t) : more pyval
| InternetExchangeNestedSerializer_data (exchanges : pyval)
    (request : Request) : more pyval
| test_napalm_connection (r : Router.t) : more pyval.

Inductive free (E : Type → Type) (A : Type) : Type :=
| Pure (a : A)
| Throw (e : exn)
| Do {X : Type} (c : E X) (k : X → free E A).

Arguments Pure {E A} a.
Arguments Throw {E A} e.
Arguments Do {E A X} c k.

Fixpoint free_bind {E A B} (f : A → free E B) (p : free E A) : free E B :=
  match p with
  | Pure a => f a
  | Throw e => Throw e
  | Do c k => Do c (λ x, free_bind f (k x))
  end.

#[export] Instance free_mret {E} : MRet (free E) := @Pure E.
#[export] Instance free_mbind {E} : MBind (free E) := @free_bind E.

Definition perform {E X} (c : E X) : free E X := Do c Pure.

Definition raise_or_return {E A} (r : A + exn) : free E A :=
  match r with
  | inl a => Pure a
  | inr e => Throw e
  end.

(** [v[key]] for a string key: a dictionary answers or raises [KeyError];
    sequences take integer indices only; nothing else can be subscripted. *)
Definition subscript (v : pyval) (key : string) : pyval + exn :=
  match v with
  | PDict _ =>
      match dict_get key v with
      | Some x => inl x
      | None => inr KeyError
      end
  | _ => inr TypeError
  end.

(** [int(v)], given how [int] reads a string ([None] when it does not
    read as an integer). *)
Definition py_int (of_string : string → option Z) (v : pyval) : Z + exn :=
  match v with
  | PInt z => inl z
  | PBool b => inl (if b then 1 else 0)
  | PStr s =>
      match of_string s with
      | Some z => inl z
      | None => inr ValueError
      end
  | PNone | PList _ | PTuple _ | PDict _ => inr TypeError
  end.

Module Other.

Module AutonomousSystemViewSet.
Definition queryset : manager := AutonomousSystem_objects.

Definition get_irr_as_set_prefixes (request : DataRequest) (pk : Z)
  : free more HttpResponse :=
  obj ← perform (core (get_object queryset pk));
  prefixes ← perform (get_irr_as_set_prefixes obj);
  mret (OK (PDict [("prefixes", prefixes)])).

Definition common_internet_exchanges (request : DataRequest) (pk : Z)
  : free more HttpResponse :=
  obj ← perform (core (get_object queryset pk));
  exchanges ← perform (get_common_internet_exchanges obj);
  serialized ← perform (InternetExchangeNestedSerializer_data exchanges
                          (request_of request));
  mret (OK (PDict [("common-internet-exchanges", serialized)])).

Definition generate_email (int_of_string : string → option Z)
    (request : DataRequest) (pk : Z) : free more HttpResponse :=
  raw ← raise_or_return (subscript (data request) "template");
  template_pk ← raise_or_return (py_int int_of_string raw);
  template ← perform (Template_objects_get template_pk);
  obj ← perform (core (get_object queryset pk));
  email ← perform (generate_email obj template);
  mret (OK (PDict [("email", email)])).
End AutonomousSystemViewSet.

Module DirectPeeringSessionViewSet.
Definition queryset : manager := DirectPeeringSession_objects.

Definition encrypt_password (request : DataRequest) (pk : Z)
  : free more HttpResponse :=
  obj ← perform (get_object_with_password queryset pk);
  platform ← raise_or_return (subscript (data request) "platform");
  _ ← perform (encrypt_password obj platform);
  obj' ← perform (get_object_with_password queryset pk);
  mret (OK (PDict [("encrypted_password", encrypted_password obj')])).
End DirectPeeringSessionViewSet.

Module InternetExchangePeeringSessionViewSet.
Definition queryset : manager := InternetExchangePeeringSession_objects.

Definition encrypt_password (request : DataRequest) (pk : Z)
  : free more HttpResponse :=
  obj ← perform (get_object_with_password queryset pk);
  platform ← raise_or_return (subscript (data request) "platform");
  _ ← perform (encrypt_password obj platform);
  obj' ← perform (get_object_with_password queryset pk);
  mret (OK (PDict [("encrypted_password", encrypted_password obj')])).
End InternetExchangePeeringSessionViewSet.

Module RouterViewSet.
Definition queryset : manager := Router_objects.

Definition configuration (request : Request) (pk : Z) : prog HttpResponse :=
  (* Check user permission first *)
  allowed ← invoke (has_perm (user request)
                      "peering.view_configuration_router");
  if negb allowed then mret HttpResponseForbidden
  else
    obj ← invoke (get_object queryset pk);
    config ← invoke (generate_configuration (RouterTarget obj));
    mret (OK (PDict [("configuration", config)])).

Definition test_napalm_connection (request : DataRequest) (pk : Z)
  : free more HttpResponse :=
  obj ← perform (core (get_object queryset pk));
  success ← perform (test_napalm_connection obj);
  if py_not success
  then Throw (ServiceUnavailable "Cannot connect to router using NAPALM.")
  else mret (OK (PDict [("status", PStr "success")])).
End RouterViewSet.

End Other.

(** *** Running the other actions *)

Definition more_handler (W : Type) : Type := ∀ X, more X → W → (X + exn) * W.

Inductive more_event : Type :=
| MoreEvent {X : Type} (c : more X) (r : X + exn).

Record more_result (W A : Type) : Type := {
  more_out : outcome A;
  more_world : W;
  more_trace : list more_event
}.

Arguments more_out {W A} _.
Arguments more_world {W A} _.
Arguments more_trace {W A} _.

Fixpoint more_run {W A} (h : more_handler W) (p : free more A) (w : W)
  : more_result W A :=
  match p with
  | Pure a => {| more_out := Returned a; more_world := w; more_trace := [] |}
  | Throw e => {| more_out := Raised e; more_world := w; more_trace := [] |}
  | Do c k =>
      match h _ c w with
      | (inl x, w') =>
          let r := more_run h (k x) w' in
          {| more_out := more_out r; more_world := more_world r;
             more_trace := MoreEvent c (inl x) :: more_trace r |}
      | (inr e, w') =>
          {| more_out := Raised e; more_world := w';
             more_trace := [MoreEvent c (inr e)] |}
      end
  end.

(** The calls of the first family that a trace contains. *)
Definition core_of (e : more_event) : option event :=
  match e with
  | MoreEvent c r =>
      match c in more X return X + exn → option event with
      | core c' => λ r, Some (Event c' r)
      | _ => λ _, None
      end r
  end.

Definition core_events (t : list more_event) : list event := omap core_of t.

(** The encryptions that a trace contains, by the platform asked for. *)
Definition encryption_of (e : more_event) : option pyval :=
  match e with
  | MoreEvent c _ =>
      match c with
      | encrypt_password _ platform => Some platform
      | _ => None
      end
  end.

Definition encryptions (t : list more_event) : list pyval :=
  omap encryption_of t.

(** The actions, by what they may touch. *)
Definition reading_actions : list (Request → Z → prog HttpResponse) :=
  [AutonomousSystemViewSet.synchronize_with_peeringdb;
   AutonomousSystemViewSet.find_potential_ix_peering_sessions;
   BGPGroupViewSet.poll_peering_sessions;
   DirectPeeringSessionViewSet.clear;
   InternetExchangeViewSet.available_peers;
   InternetExchangeViewSet.import_peering_sessions;
   InternetExchangeViewSet.poll_peering_sessions;
   InternetExchangePeeringSessionViewSet.clear].

Definition fetching_actions
  : list (manager * (Request → Z → prog HttpResponse)) :=
  [(AutonomousSystem_objects,
    AutonomousSystemViewSet.synchronize_with_peeringdb);
   (AutonomousSystem_objects,
    AutonomousSystemViewSet.find_potential_ix_peering_sessions);
   (BGPGroup_objects, BGPGroupViewSet.poll_peering_sessions);
   (DirectPeeringSession_objects, DirectPeeringSessionViewSet.clear);
   (InternetExchange_objects, InternetExchangeViewSet.available_peers);
   (InternetExchange_objects, InternetExchangeViewSet.import_peering_sessions);
   (InternetExchange_objects, InternetExchangeViewSet.configure_router);
   (InternetExchange_objects, InternetExchangeViewSet.poll_peering_sessions);
   (InternetExchangePeeringSession_objects,
    InternetExchangePeeringSessionViewSet.clear);
   (Router_objects, RouterViewSet.configure)].

Definition other_actions (int_of_string : string → option Z)
  : list (DataRequest → Z → free more HttpResponse) :=
  [Other.AutonomousSystemViewSet.get_irr_as_set_prefixes;
   Other.AutonomousSystemViewSet.common_internet_exchanges;
   Other.AutonomousSystemViewSet.generate_email int_of_string;
   Other.DirectPeeringSessionViewSet.encrypt_password;
   Other.InternetExchangePeeringSessionViewSet.encrypt_password;
   Other.RouterViewSet.test_napalm_connection].

Definition encrypting_actions
  : list (manager * (DataRequest → Z → free more HttpResponse)) :=
  [(DirectPeeringSession_objects,
    Other.DirectPeeringSessionViewSet.encrypt_password);
   (InternetExchangePeeringSession_objects,
    Other.InternetExchangePeeringSessionViewSet.encrypt_password)].

(** *** The small installation, for the other actions

    The collaborators of the small installation, a template, and the
    [encrypted_password] column of the sessions as the one piece of state:
    encrypting for "junos" stores a value for the session, and a fetch
    reads what is stored. *)
Module Trial.

Definition vault : Type := list (Z * pyval).

Definition column (v : vault) (pk : Z) : pyval :=
  match List.find (λ row, Z.eqb pk row.1) v with
  | Some row => row.2
  | None => PNone
  end.

Definition pk_of {q : manager} : instance q → Z :=
  match q with
  | AutonomousSystem_objects => AutonomousSystem.pk
  | BGPGroup_objects => BGPGroup.pk
  | DirectPeeringSession_objects => DirectPeeringSession.pk
  | InternetExchange_objects => InternetExchange.pk
  | InternetExchangePeeringSession_objects => InternetExchangePeeringSession.pk
  | Router_objects => Router.pk
  end.

(** How [int] reads the two strings that the requests below carry. *)
Definition int_of_string (s : string) : option Z :=
  if String.eqb s "1" then Some 1
  else if String.eqb s "7" then Some 7
  else None.

Definition handle : more_handler vault := λ X c v,
  match c in more X return (X + exn) * vault with
  | core c' => (Scenario.answer Scenario.calm c', v)
  | get_object_with_password q pk =>
      (match Scenario.table q pk with
       | inl o => inl {| instance_of := o; encrypted_password := column v pk |}
       | inr e => inr e
       end, v)
  | encrypt_password obj platform =>
      match platform with
      | PStr name =>
          if String.eqb name "junos"
          then (inl PNone, (pk_of (instance_of obj), PStr "$9$encrypted") :: v)
          else (inl PNone, v)
      | _ => (inl PNone, v)
      end
  | Template_objects_get pk =>
      (if Z.eqb pk 1 then inl {| Template.pk := 1 |}
       else inr (Error "DoesNotExist"), v)
  | generate_email _ _ => (inl (PStr "Dear peer"), v)
  | get_irr_as_set_prefixes _ =>
      (inl (PDict [("ipv6", PList []);
                   ("ipv4", PList [PStr "192.0.2.0/24"])]), v)
  | get_common_internet_exchanges _ => (inl (PList [PInt 1]), v)
  | InternetExchangeNestedSerializer_data exchanges _ => (inl exchanges, v)
  | test_napalm_connection r => (inl (PBool (truthy (Router.platform r))), v)
  end.

Definition posting (d : pyval) : DataRequest :=
  {| request_of := Scenario.POST; data := d |}.

End Trial.

(** ** The model layer behind the import

    [InternetExchange.import_peering_sessions_from_router] is in
    [peering/models.py] too, and is written from the specification as
    well: entry point [importSessionsFromRouter] and the policy on partial
    failures of section 7. *)
Module RouterImport.

(** Modelled from the spec: a session "observed live on a router", missing
    with [peering.models]: its peer AS and its peer IP. *)
Record Observed : Type := {
  peer_asn : Z;
  peer_ip : string
}.

(** Modelled from the spec: the stored state the import reads and writes,
    missing with [peering.models] and [peeringdb]: the configured
    exchanges by primary key, the AS numbers of the stored autonomous
    systems ("identified by a numeric AS number (unique)"), the keys
    (exchange, peer AS, peer IP) of the stored exchange sessions, the
    registry's network records by AS number, and what each reachable
    router reports, by the router's primary key. *)
Record World : Type := {
  exchanges : gmap Z InternetExchange.t;
  known : gset Z;
  sessions : list Model.key;
  networks : gmap Z Model.NetworkRecord;
  live : gmap Z (list Observed)
}.

(** Modelled from the spec: the state of one import, missing with
    [peering.models]: the autonomous systems and the sessions stored so
    far, and the three results "{asCount, sessionCount, ignoredASes}". *)
Record progress : Type := {
  stored : gset Z;
  rows : list Model.key;
  as_count : Z;
  session_count : Z;
  ignored : list Z
}.

Definition key_of (ix : Z) (o : Observed) : Model.key :=
  (ix, peer_asn o, peer_ip o).

(** Modelled from the spec: one observed session of the import, missing
    with [peering.models]: "imports sessions observed live on a router
    that aren't yet modeled, creating the missing AutonomousSystem records
    as needed", and a peer AS that the registry does not know either
    is one "it could not resolve": it goes to the ignored list, and the
    import goes on. *)
Definition import_one (ix : Z) (registry : gmap Z Model.NetworkRecord)
    (p : progress) (o : Observed) : progress :=
  if bool_decide (key_of ix o ∈ rows p) then p
  else if bool_decide (peer_asn o ∈ stored p) then
    {| stored := stored p; rows := rows p ++ [key_of ix o];
       as_count := as_count p; session_count := session_count p + 1;
       ignored := ignored p |}
  else
    match registry !! peer_asn o with
    | Some _ =>
        {| stored := {[peer_asn o]} ∪ stored p;
           rows := rows p ++ [key_of ix o];
           as_count := as_count p + 1;
           session_count := session_count p + 1;
           ignored := ignored p |}
    | None =>
        {| stored := stored p; rows := rows p;
           as_count := as_count p; session_count := session_count p;
           ignored := ignored p ++ [peer_asn o] |}
    end.

Definition import_all (ix : Z) (registry : gmap Z Model.NetworkRecord)
    (observed : list Observed) (p : progress) : progress :=
  foldl (import_one ix registry) p observed.

Definition start (w : World) : progress :=
  {| stored := known w; rows := sessions w;
     as_count := 0; session_count := 0; ignored := [] |}.

(** Modelled from the spec: [InternetExchange.
    import_peering_sessions_from_router], missing with [peering.models]:
    without a router, without a platform on it (section 4.1) or without an
    answer from it there is no import and the result is false; otherwise
    every observed session is gone through, and the result is the triple
    of the two counts and the ignored AS numbers. *)
Definition importSessionsFromRouter (ix : InternetExchange.t) (w : World)
  : pyval * World :=
  match InternetExchange.router ix with
  | None => (PBool false, w)
  | Some rt =>
      if negb (truthy (Router.platform rt)) then (PBool false, w)
      else
        match live w !! Router.pk rt with
        | None => (PBool false, w)
        | Some observed =>
            let p := import_all (InternetExchange.pk ix) (networks w)
                       observed (start w) in
            (PTuple [PInt (as_count p); PInt (session_count p);
                     PList (PInt <$> ignored p)],
             {| exchanges := exchanges w; known := stored p;
                sessions := rows p; networks := networks w;
                live := live w |})
        end
  end.

(** Modelled from the spec: [get_object] on the table of exchanges,
    missing with [utils.api]: the row with that primary key, or "not
    found". *)
Definition get_internet_exchange (pk : Z) (w : World)
  : (InternetExchange.t + exn) * World :=
  match exchanges w !! pk with
  | Some ix => (inl ix, w)
  | None => (inr Http404, w)
  end.

(** Modelled from the spec: the model layer as a handler of the calls the
    import action makes, missing with [peering.models]: the two calls
    above, and [rest] for all the others. *)
Definition handle (rest : handler World) : handler World := λ X c,
  match c in call X return World → (X + exn) * World with
  | get_object q pk =>
      match q return World → (instance q + exn) * World with
      | InternetExchange_objects => get_internet_exchange pk
      | q' => rest _ (get_object q' pk)
      end
  | import_peering_sessions_from_router ix => λ w,
      let '(v, w') := importSessionsFromRouter ix w in (inl v, w')
  | c' => rest _ c'
  end.

(** Modelled from the spec: a peer AS that cannot be resolved, in the
    words of the design notes: "AS number present on device but absent
    from registry", and not stored here either. *)
Definition unresolvable (w : World) (asn : Z) : Prop :=
  (asn ∉ known w) ∧ networks w !! asn = None.

(** The router of exchange 1 reports three sessions: one to a stored
    autonomous system, one to a network that only the registry knows, and
    one to an AS number that nobody knows. *)
Definition installation : World :=
  {| exchanges := {[ 1 := Scenario.ix1 ]};
     known := {[ 64501 ]};
     sessions := [];
     networks :=
       {[ 64502 := {| Model.net_id := 21; Model.net_name := "Other Network";
                      Model.net_irr_as_set := None |} ]};
     live :=
       {[ 1 := [ {| peer_asn := 64501; peer_ip := "192.0.2.10" |};
                 {| peer_asn := 64502; peer_ip := "192.0.2.20" |};
                 {| peer_asn := 64999; peer_ip := "192.0.2.99" |} ] ]} |}.

Definition rest : handler World :=
  λ X c w, (Scenario.answer Scenario.calm c, w).

End RouterImport.

(** * Properties *)

(** ** Reasoning about runs *)

Definition returns {W X} (h : handler W) (c : call X) (w : W) (x : X) (w' : W)
  : Prop := h X c w = (inl x, w').

(** What the collaborators must answer for a deployment to get as far as
    its push: through an exchange, the exchange is found and has a router,
    the user holds the permission of that action, and the configuration of
    the exchange renders to [config], leaving world [w3]; the push then
    goes to the exchange's router [rt]. *)
Definition exchange_deploy_ready {W} (h : handler W) (request : Request)
    (pk : Z) (w : W) (rt : Router.t) (config : pyval) (w3 : W) : Prop :=
  ∃ ix w1 w2,
    returns h (get_object InternetExchange_objects pk) w ix w1 ∧
    InternetExchange.router ix = Some rt ∧
    returns h (has_perm (user request)
                 "peering.deploy_configuration_internetexchange") w1 true w2 ∧
    returns h (generate_configuration (ExchangeTarget ix)) w2 config w3.

(** Through a router: the router [rt] is found and has a platform, the user
    holds the permission of that action, and the configuration of the
    router renders to [config], leaving world [w3]. *)
Definition router_deploy_ready {W} (h : handler W) (request : Request)
    (pk : Z) (w : W) (rt : Router.t) (config : pyval) (w3 : W) : Prop :=
  ∃ w1 w2,
    returns h (get_object Router_objects pk) w rt w1 ∧
    truthy (Router.platform rt) = true ∧
    returns h (has_perm (user request)
                 "peering.deploy_configuration_router") w1 true w2 ∧
    returns h (generate_configuration (RouterTarget rt)) w2 config w3.

Definition deploy_ready {W} (h : handler W)
    (view : Request → Z → prog HttpResponse) (request : Request) (pk : Z)
    (w : W) (rt : Router.t) (config : pyval) (w3 : W) : Prop :=
  (view = InternetExchangeViewSet.configure_router ∧
   exchange_deploy_ready h request pk w rt config w3) ∨
  (view = RouterViewSet.configure ∧
   router_deploy_ready h request pk w rt config w3).

(** The body of the response of a deployment. *)
Definition deploy_body (error changes : pyval) : pyval :=
  PDict [("changed", PBool (negb (truthy error)));
         ("changes", changes);
         ("error", error)].

Lemma run_Call {W A X} (h : handler W) (c : call X) (k : X → prog A) w :
  run h (Call c k) w =
  match h X c w with
  | (inl x, w') =>
      let r := run h (k x) w' in
      {| out := out r; world := world r; trace := Event c (inl x) :: trace r |}
  | (inr e, w') =>
      {| out := Raised e; world := w'; trace := [Event c (inr e)] |}
  end.
Proof. reflexivity. Qed.

(** Bring a view into the shape [Call c k], [if b then _ else _] or
    [match r with _ end]. *)
Ltac normalize :=
  cbn [mbind prog_mbind prog_bind invoke mret prog_mret lift receiver negb]
    in *.

(** One step of a run against handler [h]: use what is known about the
    call at hand, or split on how it ends; split on the test of a
    conditional and on a value that may be an exception. *)
Ltac step h :=
  normalize;
  match goal with
  | |- context [run h (Call ?c ?k) ?w] =>
      rewrite (run_Call h c k w);
      first
        [ match goal with H : h _ c w = _ |- _ => rewrite H end
        | let E := fresh "E" in destruct (h _ c w) as [[?|?] ?] eqn:E ];
      cbn [out world trace]
  | |- context [run h (if ?b then _ else _) ?w] =>
      let E := fresh "E" in destruct b eqn:E
  | |- context [lift ?r] =>
      let E := fresh "E" in destruct r as [?|?] eqn:E
  | |- context [receiver ?o] =>
      let E := fresh "E" in destruct o eqn:E
  | |- context [run h (let '(_, _) := ?p in _) ?w] =>
      destruct p
  end.

Ltac run_all h := repeat (step h); cbn [run out world trace] in *.

(** Membership in a list that is written out. *)
Ltac elems :=
  repeat match goal with
    | H : _ ∈ [] |- _ => apply elem_of_nil in H; destruct H
    | H : _ ∈ _ :: _ |- _ => apply elem_of_cons in H as [H|H]
    end.

Ltac entry_points H :=
  unfold deploy_entry_points in H; elems; subst;
  [ unfold InternetExchangeViewSet.configure_router
  | unfold RouterViewSet.configure ].

(** ** Deploying a configuration *)

(** A GET previews: one push, not committed, and the diff in the answer. *)
Example configure_preview :
  let r := run Scenario.handle (RouterViewSet.configure Scenario.GET 1)
             Scenario.calm in
  out r = Returned (OK (PDict [("changed", PBool true);
                               ("changes", PStr "+ neighbor 192.0.2.10");
                               ("error", PNone)])) ∧
  pushes (trace r) = [(Scenario.junos, PStr "router bgp 64500", false)].
Proof. split; reflexivity. Qed.

(** A POST commits. *)
Example configure_commit :
  pushes (trace (run Scenario.handle
                   (InternetExchangeViewSet.configure_router Scenario.POST 1)
                   Scenario.calm))
  = [(Scenario.junos, PStr "router bgp 64500", true)].
Proof. reflexivity. Qed.

(** A HEAD request is served like a GET and does not commit either. *)
Example configure_head :
  pushes (trace (run Scenario.handle
                   (RouterViewSet.configure
                      {| method := "HEAD"; user := Scenario.admin |} 1)
                   Scenario.calm))
  = [(Scenario.junos, PStr "router bgp 64500", false)].
Proof. reflexivity. Qed.

(** Without the permission nothing is rendered and nothing is pushed. *)
Example configure_forbidden :
  let r := run Scenario.handle
             (RouterViewSet.configure
                {| method := "POST"; user := Scenario.guest |} 1)
             Scenario.calm in
  out r = Returned HttpResponseForbidden ∧ steps (trace r) = [].
Proof. split; reflexivity. Qed.

(** An unreachable device: the error is reported, and [changed] is false. *)
Example configure_device_down :
  out (run Scenario.handle (RouterViewSet.configure Scenario.POST 1)
         Scenario.device_down)
  = Returned (OK (PDict [("changed", PBool false);
                         ("changes", PNone);
                         ("error", PStr "cannot connect to device")])).
Proof. reflexivity. Qed.

(** An exchange without a router. *)
Example configure_router_without_router :
  let r := run Scenario.handle
             (InternetExchangeViewSet.configure_router Scenario.POST 2)
             Scenario.calm in
  out r = Raised (ServiceUnavailable "No router available.") ∧
  steps (trace r) = [].
Proof. split; reflexivity. Qed.

(** A push that returns something other than a pair. *)
Example unpack2_not_a_pair :
  unpack2 PNone = inr TypeError ∧
  unpack2 (PTuple [PNone]) = inr ValueError ∧
  unpack2 (PStr "ab") = inl (PStr "a", PStr "b").
Proof. repeat split. Qed.

(** A deployment that answers with a [Response] rendered once, pushed what
    it rendered once, with the commit flag computed from the request
    method, and built the body from what the push returned. *)
Lemma deploy_response_inv {W} (h : handler W) view request pk w data status :
  view ∈ deploy_entry_points →
  out (run h (view request pk) w) = Returned (Response data status) →
  ∃ tg rt config result error changes,
    steps (trace (run h (view request pk) w)) =
      [Generation tg (inl config);
       Push rt config (negb (py_in (method request) SAFE_METHODS))
            (inl result)] ∧
    unpack2 result = inl (error, changes) ∧
    data = PDict [("changed", PBool (negb (truthy error)));
                  ("changes", changes); ("error", error)] ∧
    status = HTTP_200_OK.
Proof.
  intros Hv. entry_points Hv; run_all h; intros Hout; try discriminate.
  all: injection Hout as <- <-; do 6 eexists; repeat split; eauto.
Qed.

(** Every push that any run of a deployment makes carries the commit flag
    computed from the request method. *)
Lemma deploy_pushes_flag {W} (h : handler W) view request pk w push :
  view ∈ deploy_entry_points →
  push ∈ pushes (trace (run h (view request pk) w)) →
  push.2 = negb (py_in (method request) SAFE_METHODS).
Proof.
  intros Hv. entry_points Hv; run_all h; cbn; intros Hin; elems; subst;
    reflexivity.
Qed.

(** A deployment whose collaborators answer pushes exactly once, to that
    router, the text that was rendered, with the commit flag computed from
    the request method; and once that push has returned, what it returned
    decides the outcome. *)
Lemma deploy_ready_run {W} (h : handler W) view request pk w rt config w3 :
  deploy_ready h view request pk w rt config w3 →
  let commit := negb (py_in (method request) SAFE_METHODS) in
  let r := run h (view request pk) w in
  pushes (trace r) = [(rt, config, commit)] ∧
  ∀ result w4,
    returns h (set_napalm_configuration rt config commit) w3 result w4 →
    out r = match unpack2 result with
            | inl (error, changes) => Returned (OK (deploy_body error changes))
            | inr e => Raised e
            end.
Proof.
  unfold returns.
  intros [[-> (ix & w1 & w2 & Hobj & Hrt & Hperm & Hgen)]
         |[-> (w1 & w2 & Hobj & Hp & Hperm & Hgen)]]; unfold returns in *;
    cbv zeta.
  - unfold InternetExchangeViewSet.configure_router,
      InternetExchangeViewSet.queryset.
    split.
    + step h. rewrite Hrt.
      cbn [py_not truthy option_truthy router_truthy negb receiver].
      run_all h; reflexivity.
    + intros result w4 Hpush. step h. rewrite Hrt.
      cbn [py_not truthy option_truthy router_truthy negb receiver].
      run_all h; reflexivity.
  - unfold RouterViewSet.configure, RouterViewSet.queryset.
    split.
    + step h. unfold py_not. rewrite Hp. run_all h; reflexivity.
    + intros result w4 Hpush. step h. unfold py_not. rewrite Hp.
      run_all h; reflexivity.
Qed.

(** The safe methods, spelled out. *)
Lemma safe_method_iff m :
  py_in m SAFE_METHODS = true ↔ m = "GET" ∨ m = "HEAD" ∨ m = "OPTIONS".
Proof.
  unfold py_in, SAFE_METHODS. cbn [existsb]. rewrite !orb_true_iff.
  rewrite !String.eqb_eq. split; intros H; [|tauto].
  destruct H as [H|[H|[H|H]]]; try tauto. discriminate H.
Qed.

(** C1: in both deployment actions, when the collaborators answer (the
    object is found and passes the action's guard, the permission is
    granted, the configuration renders), the action pushes the rendered
    text to the router exactly once, and the commit flag of that push is
    true if and only if the request method is not a safe method, that is
    not GET, HEAD or OPTIONS.  So a GET pushes with commit=false, and when
    that push returns its pair, the GET is answered with the changes the
    push computed.  Besides, no run at all, from any world, contains a push
    with another flag. *)
Theorem C1_commit_iff_method_not_safe {W} (h : handler W)
    view request pk w rt config w3 :
  deploy_ready h view request pk w rt config w3 →
  let commit := negb (py_in (method request) SAFE_METHODS) in
  let r := run h (view request pk) w in
  pushes (trace r) = [(rt, config, commit)] ∧
  (commit = true
   ↔ ¬ (method request = "GET" ∨ method request = "HEAD" ∨
        method request = "OPTIONS")) ∧
  (method request = "GET" →
     pushes (trace r) = [(rt, config, false)] ∧
     ∀ result w4 error changes,
       returns h (set_napalm_configuration rt config false) w3 result w4 →
       unpack2 result = inl (error, changes) →
       out r = Returned (OK (deploy_body error changes)) ∧
       dict_get "changes" (deploy_body error changes) = Some changes) ∧
  (∀ w0 push,
     push ∈ pushes (trace (run h (view request pk) w0)) → push.2 = commit).
Proof.
  intros Hready. cbv zeta.
  destruct (deploy_ready_run h view request pk w rt config w3 Hready)
    as [Hpushes Hout].
  split; [exact Hpushes|]. split; [|split].
  - rewrite negb_true_iff, <- safe_method_iff.
    destruct (py_in (method request) SAFE_METHODS); split; congruence.
  - intros Hget. rewrite Hget in Hpushes, Hout. split; [exact Hpushes|].
    intros result w4 error changes Hpush Hu.
    specialize (Hout result w4 Hpush). rewrite Hu in Hout.
    split; [exact Hout | reflexivity].
  - intros w0 push Hin.
    apply (deploy_pushes_flag h view request pk w0 push); [|exact Hin].
    destruct Hready as [[-> _]|[-> _]]; [left | right; left].
Qed.

Lemma C1_witness :
  deploy_ready Scenario.handle RouterViewSet.configure Scenario.GET 1
    Scenario.calm Scenario.junos (PStr "router bgp 64500") Scenario.calm ∧
  deploy_ready Scenario.handle InternetExchangeViewSet.configure_router
    Scenario.GET 1 Scenario.calm Scenario.junos (PStr "router bgp 64500")
    Scenario.calm ∧
  pushes (trace (run Scenario.handle (RouterViewSet.configure Scenario.GET 1)
                   Scenario.calm))
  = [(Scenario.junos, PStr "router bgp 64500", false)] ∧
  pushes (trace (run Scenario.handle
                   (InternetExchangeViewSet.configure_router Scenario.GET 1)
                   Scenario.calm))
  = [(Scenario.junos, PStr "router bgp 64500", false)] ∧
  out (run Scenario.handle (RouterViewSet.configure Scenario.GET 1)
         Scenario.calm)
  = Returned (OK (deploy_body PNone (PStr "+ neighbor 192.0.2.10"))).
Proof.
  assert (Hr : deploy_ready Scenario.handle RouterViewSet.configure
                 Scenario.GET 1 Scenario.calm Scenario.junos
                 (PStr "router bgp 64500") Scenario.calm).
  { right. split; [reflexivity|].
    exists Scenario.calm, Scenario.calm. repeat split. }
  assert (Hx : deploy_ready Scenario.handle
                 InternetExchangeViewSet.configure_router
                 Scenario.GET 1 Scenario.calm Scenario.junos
                 (PStr "router bgp 64500") Scenario.calm).
  { left. split; [reflexivity|].
    exists Scenario.ix1, Scenario.calm, Scenario.calm. repeat split. }
  split; [exact Hr|]. split; [exact Hx|].
  split;
    [exact (proj1 (proj1 (proj2 (proj2
              (C1_commit_iff_method_not_safe Scenario.handle
                 RouterViewSet.configure Scenario.GET 1 Scenario.calm
                 Scenario.junos (PStr "router bgp 64500") Scenario.calm Hr)))
              eq_refl))|].
  split;
    [exact (proj1 (proj1 (proj2 (proj2
              (C1_commit_iff_method_not_safe Scenario.handle
                 InternetExchangeViewSet.configure_router Scenario.GET 1
                 Scenario.calm Scenario.junos (PStr "router bgp 64500")
                 Scenario.calm Hx))) eq_refl))|].
  exact (proj1 (proj2 (proj1 (proj2 (proj2
           (C1_commit_iff_method_not_safe Scenario.handle
              RouterViewSet.configure Scenario.GET 1 Scenario.calm
              Scenario.junos (PStr "router bgp 64500") Scenario.calm Hr)))
           eq_refl)
           (PTuple [PNone; PStr "+ neighbor 192.0.2.10"]) Scenario.calm
           PNone (PStr "+ neighbor 192.0.2.10") eq_refl eq_refl)).
Defined.

(** C6: in both deployment actions, a rendering that raises ends the
    request with that exception and no push is made; and whenever a push is
    made, it is the second and last configuration step, right after a
    rendering that returned the very text that is pushed. *)
Theorem C6_failed_generation_never_pushes {W} (h : handler W)
    view request pk w :
  view ∈ deploy_entry_points →
  let r := run h (view request pk) w in
  (∀ tg e, Generation tg (inr e) ∈ steps (trace r) →
     out r = Raised e ∧ pushes (trace r) = []) ∧
  (∀ rt config commit res, Push rt config commit res ∈ steps (trace r) →
     ∃ tg, steps (trace r) =
             [Generation tg (inl config); Push rt config commit res]).
Proof.
  intros Hv. entry_points Hv; run_all h; cbn; split; intros; elems;
    simplify_eq; eauto.
Qed.

Lemma C6_witness :
  RouterViewSet.configure ∈ deploy_entry_points ∧
  Generation (RouterTarget Scenario.junos) (inr (Error "RenderError"))
    ∈ steps (trace (run Scenario.handle
                      (RouterViewSet.configure Scenario.GET 1)
                      Scenario.broken_template)) ∧
  out (run Scenario.handle (RouterViewSet.configure Scenario.GET 1)
         Scenario.broken_template) = Raised (Error "RenderError") ∧
  pushes (trace (run Scenario.handle
                   (RouterViewSet.configure Scenario.GET 1)
                   Scenario.broken_template)) = [].
Proof.
  assert (Hv : RouterViewSet.configure ∈ deploy_entry_points)
    by (right; left).
  assert (Hg : Generation (RouterTarget Scenario.junos)
                 (inr (Error "RenderError"))
               ∈ steps (trace (run Scenario.handle
                                 (RouterViewSet.configure Scenario.GET 1)
                                 Scenario.broken_template)))
    by (vm_compute; left).
  split; [exact Hv|]. split; [exact Hg|].
  exact (proj1 (C6_failed_generation_never_pushes Scenario.handle
                  RouterViewSet.configure Scenario.GET 1
                  Scenario.broken_template Hv) _ _ Hg).
Defined.

(** C10: in both deployment actions, when the collaborators answer and the
    push returns a pair (error, changes), the action answers, and in its
    answer ["changed"] is the negation of the truth value of that error,
    whatever the changes are: a push that reports no error is answered with
    changed=true, also with no changes at all, and a reported error with
    changed=false.  Conversely every response of a deployment was built
    that way from what a push returned. *)
Theorem C10_changed_is_not_error {W} (h : handler W) view request pk w :
  view ∈ deploy_entry_points →
  let r := run h (view request pk) w in
  (∀ rt config w3 result w4 error changes,
     deploy_ready h view request pk w rt config w3 →
     returns h (set_napalm_configuration rt config
                  (negb (py_in (method request) SAFE_METHODS)))
       w3 result w4 →
     unpack2 result = inl (error, changes) →
     out r = Returned (OK (deploy_body error changes)) ∧
     dict_get "error" (deploy_body error changes) = Some error ∧
     dict_get "changed" (deploy_body error changes)
     = Some (PBool (negb (truthy error))) ∧
     (truthy error = false →
      dict_get "changed" (deploy_body error changes) = Some (PBool true)) ∧
     (truthy error = true →
      dict_get "changed" (deploy_body error changes) = Some (PBool false))) ∧
  (∀ data status, out r = Returned (Response data status) →
     ∃ rt config commit result error changes,
       Push rt config commit (inl result) ∈ steps (trace r) ∧
       unpack2 result = inl (error, changes) ∧
       dict_get "error" data = Some error ∧
       dict_get "changes" data = Some changes ∧
       dict_get "changed" data = Some (PBool (negb (truthy error)))).
Proof.
  intros Hv. cbv zeta. split.
  - intros rt config w3 result w4 error changes Hready Hpush Hu.
    destruct (deploy_ready_run h view request pk w rt config w3 Hready)
      as [_ Hout].
    specialize (Hout result w4 Hpush). rewrite Hu in Hout.
    split; [exact Hout|]. split; [reflexivity|]. split; [reflexivity|].
    split; intros Ht; cbn; rewrite Ht; reflexivity.
  - intros data status Hout.
    destruct (deploy_response_inv h view request pk w data status Hv Hout)
      as (tg & rt & config & result & error & changes & Hs & Hu & -> & _).
    exists rt, config, (negb (py_in (method request) SAFE_METHODS)),
      result, error, changes.
    rewrite Hs. repeat split; auto. right; left.
Qed.

Lemma C10_witness :
  InternetExchangeViewSet.configure_router ∈ deploy_entry_points ∧
  RouterViewSet.configure ∈ deploy_entry_points ∧
  deploy_ready Scenario.handle InternetExchangeViewSet.configure_router
    Scenario.POST 1 Scenario.in_sync Scenario.junos (PStr "router bgp 64500")
    Scenario.in_sync ∧
  deploy_ready Scenario.handle RouterViewSet.configure
    Scenario.POST 1 Scenario.device_down Scenario.junos
    (PStr "router bgp 64500") Scenario.device_down ∧
  out (run Scenario.handle
         (InternetExchangeViewSet.configure_router Scenario.POST 1)
         Scenario.in_sync)
  = Returned (OK (deploy_body PNone (PStr EmptyString))) ∧
  dict_get "changed" (deploy_body PNone (PStr EmptyString))
  = Some (PBool true) ∧
  out (run Scenario.handle (RouterViewSet.configure Scenario.POST 1)
         Scenario.device_down)
  = Returned (OK (deploy_body (PStr "cannot connect to device") PNone)) ∧
  dict_get "changed" (deploy_body (PStr "cannot connect to device") PNone)
  = Some (PBool false).
Proof.
  assert (Hvx : InternetExchangeViewSet.configure_router
                ∈ deploy_entry_points) by left.
  assert (Hvr : RouterViewSet.configure ∈ deploy_entry_points)
    by (right; left).
  assert (Hx : deploy_ready Scenario.handle
                 InternetExchangeViewSet.configure_router
                 Scenario.POST 1 Scenario.in_sync Scenario.junos
                 (PStr "router bgp 64500") Scenario.in_sync).
  { left. split; [reflexivity|].
    exists Scenario.ix1, Scenario.in_sync, Scenario.in_sync. repeat split. }
  assert (Hr : deploy_ready Scenario.handle RouterViewSet.configure
                 Scenario.POST 1 Scenario.device_down Scenario.junos
                 (PStr "router bgp 64500") Scenario.device_down).
  { right. split; [reflexivity|].
    exists Scenario.device_down, Scenario.device_down. repeat split. }
  split; [exact Hvx|]. split; [exact Hvr|].
  split; [exact Hx|]. split; [exact Hr|].
  pose proof (proj1 (C10_changed_is_not_error Scenario.handle
                       InternetExchangeViewSet.configure_router
                       Scenario.POST 1 Scenario.in_sync Hvx)
                Scenario.junos (PStr "router bgp 64500") Scenario.in_sync
                (PTuple [PNone; PStr EmptyString]) Scenario.in_sync
                PNone (PStr EmptyString) Hx eq_refl eq_refl)
    as (Hout1 & _ & _ & Htrue & _).
  pose proof (proj1 (C10_changed_is_not_error Scenario.handle
                       RouterViewSet.configure
                       Scenario.POST 1 Scenario.device_down Hvr)
                Scenario.junos (PStr "router bgp 64500") Scenario.device_down
                (PTuple [PStr "cannot connect to device"; PNone])
                Scenario.device_down
                (PStr "cannot connect to device") PNone Hr eq_refl eq_refl)
    as (Hout2 & _ & _ & _ & Hfalse).
  split; [exact Hout1|]. split; [exact (Htrue eq_refl)|].
  split; [exact Hout2 | exact (Hfalse eq_refl)].
Defined.

(** ** Polling *)

(** C2: for a BGP group and for an Internet exchange alike, once the poll
    has returned, the action raises [ServiceUnavailable] with the message
    "Cannot update peering session states." exactly when what the poll
    returned is false, and answers [{"status": "success"}] otherwise. *)
Theorem C2_poll_failure_is_service_unavailable {W} (h : handler W)
    request pk w :
  (∀ obj w1 success w2,
     returns h (get_object BGPGroup_objects pk) w obj w1 →
     returns h (poll_peering_sessions (GroupScope obj)) w1 success w2 →
     let r := run h (BGPGroupViewSet.poll_peering_sessions request pk) w in
     (out r = Raised (ServiceUnavailable
                        "Cannot update peering session states.")
      ↔ truthy success = false) ∧
     (truthy success = true →
      out r = Returned (OK (PDict [("status", PStr "success")])))) ∧
  (∀ obj w1 success w2,
     returns h (get_object InternetExchange_objects pk) w obj w1 →
     returns h (poll_peering_sessions (ExchangeScope obj)) w1 success w2 →
     let r :=
       run h (InternetExchangeViewSet.poll_peering_sessions request pk) w in
     (out r = Raised (ServiceUnavailable
                        "Cannot update peering session states.")
      ↔ truthy success = false) ∧
     (truthy success = true →
      out r = Returned (OK (PDict [("status", PStr "success")])))).
Proof.
  split; intros obj w1 success w2 Hobj Hpoll; unfold returns in *.
  - unfold BGPGroupViewSet.poll_peering_sessions, BGPGroupViewSet.queryset.
    run_all h; unfold py_not in *;
      destruct (truthy success); cbn in *; try discriminate;
      (split; [split|]); congruence.
  - unfold InternetExchangeViewSet.poll_peering_sessions,
      InternetExchangeViewSet.queryset.
    run_all h; unfold py_not in *;
      destruct (truthy success); cbn in *; try discriminate;
      (split; [split|]); congruence.
Qed.

Lemma C2_witness :
  returns Scenario.handle (get_object BGPGroup_objects 1)
    Scenario.device_down Scenario.group1 Scenario.device_down ∧
  returns Scenario.handle (poll_peering_sessions (GroupScope Scenario.group1))
    Scenario.device_down (PBool false) Scenario.device_down ∧
  (out (run Scenario.handle
          (BGPGroupViewSet.poll_peering_sessions Scenario.POST 1)
          Scenario.device_down)
   = Raised (ServiceUnavailable "Cannot update peering session states.")
   ↔ truthy (PBool false) = false).
Proof.
  assert (Hobj : returns Scenario.handle (get_object BGPGroup_objects 1)
                   Scenario.device_down Scenario.group1 Scenario.device_down)
    by reflexivity.
  assert (Hpoll : returns Scenario.handle
                    (poll_peering_sessions (GroupScope Scenario.group1))
                    Scenario.device_down (PBool false) Scenario.device_down)
    by reflexivity.
  split; [exact Hobj|]. split; [exact Hpoll|].
  exact (proj1 (proj1 (C2_poll_failure_is_service_unavailable
                         Scenario.handle Scenario.POST 1
                         Scenario.device_down) _ _ _ _ Hobj Hpoll)).
Defined.

(** ** Available peers *)

(** C3, as stated, fails: exchange 2 of the small installation has no peer
    candidates, [get_available_peers] returns the empty list, and the
    action raises instead of answering with an empty result. *)
Lemma C3_counterexample :
  let r := run Scenario.handle
             (InternetExchangeViewSet.available_peers Scenario.GET 2)
             Scenario.calm in
  returns Scenario.handle (get_object InternetExchange_objects 2)
    Scenario.calm Scenario.ix2 Scenario.calm ∧
  returns Scenario.handle (get_available_peers Scenario.ix2)
    Scenario.calm (PList []) Scenario.calm ∧
  out r = Raised (ServiceUnavailable "No peers found.") ∧
  ¬ ∃ response, out r = Returned response.
Proof.
  cbv zeta. repeat split. intros [response H]. discriminate H.
Qed.

(** C3, amended: once [get_available_peers] has returned, the action
    raises [ServiceUnavailable] "No peers found." when what it returned is
    false (empty), without serializing anything; otherwise it answers with
    the serialized peers under ["available-peers"]. *)
Theorem C3_no_peers_is_service_unavailable {W} (h : handler W)
    request pk w obj w1 peers w2 :
  returns h (get_object InternetExchange_objects pk) w obj w1 →
  returns h (get_available_peers obj) w1 peers w2 →
  let r := run h (InternetExchangeViewSet.available_peers request pk) w in
  (truthy peers = false →
     out r = Raised (ServiceUnavailable "No peers found.") ∧
     trace r = [Event (get_object InternetExchange_objects pk) (inl obj);
                Event (get_available_peers obj) (inl peers)]) ∧
  (truthy peers = true → ∀ data w3,
     returns h (PeerRecordSerializer_data peers) w2 data w3 →
     out r = Returned (OK (PDict [("available-peers", data)]))).
Proof.
  unfold returns. intros Hobj Hpeers.
  unfold InternetExchangeViewSet.available_peers,
    InternetExchangeViewSet.queryset.
  split.
  - intros Hf. run_all h; unfold py_not in *; rewrite Hf in *; cbn in *;
      try discriminate. split; reflexivity.
  - intros Ht data w3 Hdata. run_all h; unfold py_not in *;
      rewrite Ht in *; cbn in *; try discriminate. reflexivity.
Qed.

Lemma C3_witness :
  returns Scenario.handle (get_object InternetExchange_objects 1)
    Scenario.calm Scenario.ix1 Scenario.calm ∧
  returns Scenario.handle (get_available_peers Scenario.ix1)
    Scenario.calm (PList [PInt 64501; PInt 64502]) Scenario.calm ∧
  truthy (PList [PInt 64501; PInt 64502]) = true ∧
  returns Scenario.handle
    (PeerRecordSerializer_data (PList [PInt 64501; PInt 64502]))
    Scenario.calm (PList [PInt 64501; PInt 64502]) Scenario.calm ∧
  out (run Scenario.handle
         (InternetExchangeViewSet.available_peers Scenario.GET 1)
         Scenario.calm)
  = Returned (OK (PDict [("available-peers",
                          PList [PInt 64501; PInt 64502])])).
Proof.
  assert (Hobj : returns Scenario.handle
                   (get_object InternetExchange_objects 1)
                   Scenario.calm Scenario.ix1 Scenario.calm) by reflexivity.
  assert (Hpeers : returns Scenario.handle (get_available_peers Scenario.ix1)
                     Scenario.calm (PList [PInt 64501; PInt 64502])
                     Scenario.calm) by reflexivity.
  assert (Hdata : returns Scenario.handle
                    (PeerRecordSerializer_data
                       (PList [PInt 64501; PInt 64502]))
                    Scenario.calm (PList [PInt 64501; PInt 64502])
                    Scenario.calm) by reflexivity.
  split; [exact Hobj|]. split; [exact Hpeers|]. split; [reflexivity|].
  split; [exact Hdata|].
  exact (proj2 (C3_no_peers_is_service_unavailable Scenario.handle
                  Scenario.GET 1 Scenario.calm _ _ _ _ Hobj Hpeers)
           eq_refl _ _ Hdata).
Defined.

(** ** The platform precondition *)

(** The router without a platform, through the router's own action. *)
Example configure_without_platform :
  let r := run Scenario.handle (RouterViewSet.configure Scenario.POST 2)
             Scenario.calm in
  out r = Raised (ServiceUnavailable "Unsupported router platform.") ∧
  pushes (trace r) = [].
Proof. split; reflexivity. Qed.

(** Pushing through a router checks the platform first: without one, the
    action raises after fetching the router and calls nothing else. *)
Lemma router_configure_requires_platform {W} (h : handler W)
    request pk w rt w1 :
  returns h (get_object Router_objects pk) w rt w1 →
  truthy (Router.platform rt) = false →
  let r := run h (RouterViewSet.configure request pk) w in
  out r = Raised (ServiceUnavailable "Unsupported router platform.") ∧
  trace r = [Event (get_object Router_objects pk) (inl rt)].
Proof.
  unfold returns. intros Hobj Hp.
  unfold RouterViewSet.configure, RouterViewSet.queryset.
  run_all h; unfold py_not in *; rewrite Hp in *; cbn in *;
    try discriminate. split; reflexivity.
Qed.

(** C4 fails on the exchange path: [configure_router] never reads the
    platform of the exchange's router.  With a router that has no platform,
    a permitted request whose rendering returns goes on to call
    [set_napalm_configuration] on that router. *)
Theorem C4_exchange_push_without_platform {W} (h : handler W)
    request pk w ix rt w1 w2 config w3 :
  returns h (get_object InternetExchange_objects pk) w ix w1 →
  InternetExchange.router ix = Some rt →
  truthy (Router.platform rt) = false →
  returns h (has_perm (user request)
               "peering.deploy_configuration_internetexchange") w1 true w2 →
  returns h (generate_configuration (ExchangeTarget ix)) w2 config w3 →
  pushes (trace (run h (InternetExchangeViewSet.configure_router request pk)
                   w))
  = [(rt, config, negb (py_in (method request) SAFE_METHODS))].
Proof.
  unfold returns. intros Hobj Hrt _ Hperm Hgen.
  unfold InternetExchangeViewSet.configure_router,
    InternetExchangeViewSet.queryset.
  step h. rewrite Hrt.
  cbn [py_not truthy option_truthy router_truthy negb receiver].
  run_all h; reflexivity.
Qed.

Lemma C4_witness :
  returns Scenario.handle (get_object InternetExchange_objects 3)
    Scenario.calm Scenario.ix3 Scenario.calm ∧
  InternetExchange.router Scenario.ix3 = Some Scenario.bare ∧
  truthy (Router.platform Scenario.bare) = false ∧
  pushes (trace (run Scenario.handle
                   (InternetExchangeViewSet.configure_router Scenario.POST 3)
                   Scenario.calm))
  = [(Scenario.bare, PStr "router bgp 64500", true)].
Proof.
  split; [reflexivity|]. split; [reflexivity|]. split; [reflexivity|].
  exact (C4_exchange_push_without_platform Scenario.handle Scenario.POST 3
           Scenario.calm Scenario.ix3 Scenario.bare Scenario.calm
           Scenario.calm (PStr "router bgp 64500") Scenario.calm
           eq_refl eq_refl eq_refl eq_refl eq_refl).
Defined.

(** ** Clearing a session *)

(** A session with a router: fetched twice, cleared once. *)
Example clear_on_router :
  let r := run Scenario.handle
             (InternetExchangePeeringSessionViewSet.clear Scenario.GET 1)
             Scenario.calm in
  out r = Returned (OK (PDict [("result", PBool true)])) ∧
  clears (trace r) = [(Scenario.junos, ExchangeSession Scenario.xsession1)] ∧
  length (trace r) = 3%nat.
Proof. repeat split. Qed.

(** C7: for a direct session and for an exchange session alike, once the
    session is fetched (and, with a router, fetched again and cleared), the
    action raises [ServiceUnavailable] "No router available to clear
    session" exactly when the session has no router, and then clears
    nothing; with a router it clears the session on that router, once, and
    answers with what [clear_bgp_session] returned. *)
Theorem C7_clear_needs_router {W} (h : handler W) request pk w :
  (∀ obj w1 obj' w2 result w3,
     returns h (get_object DirectPeeringSession_objects pk) w obj w1 →
     returns h (get_object DirectPeeringSession_objects pk) w1 obj' w2 →
     (∀ rt, DirectPeeringSession.router obj = Some rt →
        returns h (clear_bgp_session rt (DirectSession obj')) w2 result w3) →
     let r := run h (DirectPeeringSessionViewSet.clear request pk) w in
     (out r = Raised (ServiceUnavailable
                        "No router available to clear session")
      ↔ DirectPeeringSession.router obj = None) ∧
     (clears (trace r) = [] ↔ DirectPeeringSession.router obj = None) ∧
     (∀ rt, DirectPeeringSession.router obj = Some rt →
        out r = Returned (OK (PDict [("result", result)])) ∧
        clears (trace r) = [(rt, DirectSession obj')])) ∧
  (∀ obj w1 obj' w2 result w3,
     let router :=
       InternetExchange.router
         (InternetExchangePeeringSession.internet_exchange obj) in
     returns h (get_object InternetExchangePeeringSession_objects pk)
       w obj w1 →
     returns h (get_object InternetExchangePeeringSession_objects pk)
       w1 obj' w2 →
     (∀ rt, router = Some rt →
        returns h (clear_bgp_session rt (ExchangeSession obj')) w2
          result w3) →
     let r :=
       run h (InternetExchangePeeringSessionViewSet.clear request pk) w in
     (out r = Raised (ServiceUnavailable
                        "No router available to clear session")
      ↔ router = None) ∧
     (clears (trace r) = [] ↔ router = None) ∧
     (∀ rt, router = Some rt →
        out r = Returned (OK (PDict [("result", result)])) ∧
        clears (trace r) = [(rt, ExchangeSession obj')])).
Proof.
  split; intros obj w1 obj' w2 result w3; cbv zeta; unfold returns;
    intros Hobj Hobj' Hclear.
  - unfold DirectPeeringSessionViewSet.clear,
      DirectPeeringSessionViewSet.queryset.
    step h.
    destruct (DirectPeeringSession.router obj) as [rt|].
    + specialize (Hclear rt eq_refl).
      cbn [py_not truthy option_truthy router_truthy negb receiver].
      run_all h. cbn.
      repeat split; intros; simplify_eq; reflexivity.
    + cbn. repeat split; intros; simplify_eq.
  - unfold InternetExchangePeeringSessionViewSet.clear,
      InternetExchangePeeringSessionViewSet.queryset.
    step h.
    destruct (InternetExchange.router
                (InternetExchangePeeringSession.internet_exchange obj))
      as [rt|].
    + specialize (Hclear rt eq_refl).
      cbn [py_not truthy option_truthy router_truthy negb receiver].
      run_all h. cbn.
      repeat split; intros; simplify_eq; reflexivity.
    + cbn. repeat split; intros; simplify_eq.
Qed.

Lemma C7_witness :
  returns Scenario.handle (get_object DirectPeeringSession_objects 2)
    Scenario.calm Scenario.direct2 Scenario.calm ∧
  (∀ rt, DirectPeeringSession.router Scenario.direct2 = Some rt →
     returns Scenario.handle
       (clear_bgp_session rt (DirectSession Scenario.direct2))
       Scenario.calm (PBool true) Scenario.calm) ∧
  (out (run Scenario.handle (DirectPeeringSessionViewSet.clear Scenario.GET 2)
          Scenario.calm)
   = Raised (ServiceUnavailable "No router available to clear session")
   ↔ DirectPeeringSession.router Scenario.direct2 = None).
Proof.
  assert (Hobj : returns Scenario.handle
                   (get_object DirectPeeringSession_objects 2)
                   Scenario.calm Scenario.direct2 Scenario.calm)
    by reflexivity.
  assert (Hclear : ∀ rt,
             DirectPeeringSession.router Scenario.direct2 = Some rt →
             returns Scenario.handle
               (clear_bgp_session rt (DirectSession Scenario.direct2))
               Scenario.calm (PBool true) Scenario.calm)
    by (intros rt _; reflexivity).
  split; [exact Hobj|]. split; [exact Hclear|].
  exact (proj1 (proj1 (C7_clear_needs_router Scenario.handle Scenario.GET 2
                         Scenario.calm) _ _ _ _ _ _ Hobj Hobj Hclear)).
Defined.

(** ** Importing sessions from a router *)

(** A failed import returns a false value, and the action raises. *)
Example import_from_unreachable_router :
  out (run Scenario.handle
         (InternetExchangeViewSet.import_peering_sessions Scenario.POST 1)
         Scenario.device_down)
  = Raised (ServiceUnavailable "Cannot import peering sessions from router.").
Proof. reflexivity. Qed.

(** A triple of zeros and an empty list is still a true value. *)
Example empty_import_is_truthy :
  truthy (PTuple [PInt 0; PInt 0; PList []]) = true.
Proof. reflexivity. Qed.

(** Whatever the collaborators are: when the import returns a triple, the
    action answers with exactly three entries, the components of the
    triple in order. *)
Lemma import_view_copies_triple {W} (h : handler W)
    request pk w obj w1 as_count session_count ignored w2 :
  returns h (get_object InternetExchange_objects pk) w obj w1 →
  returns h (import_peering_sessions_from_router obj) w1
    (PTuple [as_count; session_count; ignored]) w2 →
  run h (InternetExchangeViewSet.import_peering_sessions request pk) w
  = {| out := Returned
                (OK (PDict [("autonomous-system-count", as_count);
                            ("peering-session-count", session_count);
                            ("ignored-autonomous-systems", ignored)]));
       world := w2;
       trace := [Event (get_object InternetExchange_objects pk) (inl obj);
                 Event (import_peering_sessions_from_router obj)
                   (inl (PTuple [as_count; session_count; ignored]))] |}.
Proof.
  unfold returns. intros Hobj Himport.
  unfold InternetExchangeViewSet.import_peering_sessions,
    InternetExchangeViewSet.queryset.
  do 2 step h. reflexivity.
Qed.

Section import.
Import RouterImport.
Variable ix : Z.
Variable registry : gmap Z Model.NetworkRecord.

(** What going through the observed sessions keeps true, from the state
    [p0] it started in: nothing stored is lost; an autonomous system is
    stored only if it was or if the registry knows it; a session is stored
    only if it was or if it was observed and its peer is stored; an AS
    number is ignored only if it was or if it was observed and neither
    stored at the start nor known to the registry; every observed session
    is stored or its peer is ignored; and the two counts count what was
    added. *)
Lemma import_all_spec observed p0 :
  let p := import_all ix registry observed p0 in
  stored p0 ⊆ stored p ∧
  (∀ a, a ∈ stored p → a ∈ stored p0 ∨ is_Some (registry !! a)) ∧
  (∀ k, k ∈ rows p0 → k ∈ rows p) ∧
  (∀ k, k ∈ rows p →
     k ∈ rows p0 ∨
     ∃ o, o ∈ observed ∧ k = key_of ix o ∧ peer_asn o ∈ stored p) ∧
  (∀ a, a ∈ ignored p0 → a ∈ ignored p) ∧
  (∀ a, a ∈ ignored p →
     a ∈ ignored p0 ∨
     ((a ∉ stored p0) ∧ registry !! a = None ∧
      ∃ o, o ∈ observed ∧ peer_asn o = a)) ∧
  (∀ o, o ∈ observed → key_of ix o ∈ rows p ∨ peer_asn o ∈ ignored p) ∧
  (session_count p - session_count p0
   = Z.of_nat (length (rows p)) - Z.of_nat (length (rows p0)))%Z ∧
  (as_count p - as_count p0
   = Z.of_nat (size (stored p)) - Z.of_nat (size (stored p0)))%Z.
Proof.
  unfold import_all. induction observed as [|o l IH] using rev_ind.
  - cbn. repeat split; auto; try lia. intros o Ho. inversion Ho.
  - rewrite foldl_app. cbn [foldl].
    set (p := foldl (import_one ix registry) p0 l) in *. cbv zeta in IH.
    destruct IH as (Hs & Hs' & Hr & Hr' & Hi & Hi' & Hall & Hsc & Hac).
    cbv zeta. unfold import_one.
    case_bool_decide as Hkey; [|case_bool_decide as Hasn;
                                 [|destruct (registry !! peer_asn o)
                                     as [n|] eqn:Hreg]]; cbn.
    + (* already stored *)
      split; [done|]. split; [done|]. split; [done|]. split.
      { intros k Hk. destruct (Hr' k Hk) as [?|(o' & Ho' & -> & Hin)];
          [by left|]. right. exists o'. split; [|done].
        apply elem_of_app. by left. }
      split; [done|]. split.
      { intros a Ha. destruct (Hi' a Ha) as [?|(? & ? & o' & Ho' & <-)];
          [by left|]. right. split; [done|]. split; [done|].
        exists o'. split; [|done]. apply elem_of_app. by left. }
      split; [|done].
      intros o' [Ho'| ->%list_elem_of_singleton]%elem_of_app;
        [by apply Hall | by left].
    + (* a session to a stored autonomous system *)
      split; [done|]. split; [done|]. split.
      { intros k Hk. apply elem_of_app. left. by apply Hr. }
      split.
      { intros k [Hk| ->%list_elem_of_singleton]%elem_of_app.
        - destruct (Hr' k Hk) as [?|(o' & Ho' & -> & Hin)]; [by left|].
          right. exists o'. split; [|done]. apply elem_of_app. by left.
        - right. exists o. split; [|done]. apply elem_of_app. right.
          by apply list_elem_of_singleton. }
      split; [done|]. split.
      { intros a Ha. destruct (Hi' a Ha) as [?|(? & ? & o' & Ho' & <-)];
          [by left|]. right. split; [done|]. split; [done|].
        exists o'. split; [|done]. apply elem_of_app. by left. }
      split.
      { intros o' [Ho'| ->%list_elem_of_singleton]%elem_of_app.
        - destruct (Hall o' Ho') as [?|?]; [left|by right].
          apply elem_of_app. by left.
        - left. apply elem_of_app. right. by apply list_elem_of_singleton. }
      split; [|done]. rewrite length_app. cbn. lia.
    + (* a session to a network of the registry *)
      split; [set_solver|]. split.
      { intros a [->%elem_of_singleton|Ha]%elem_of_union;
          [right; rewrite Hreg; eauto | by apply Hs']. }
      split.
      { intros k Hk. apply elem_of_app. left. by apply Hr. }
      split.
      { intros k [Hk| ->%list_elem_of_singleton]%elem_of_app.
        - destruct (Hr' k Hk) as [?|(o' & Ho' & -> & Hin)]; [by left|].
          right. exists o'. split; [apply elem_of_app; by left|].
          split; [done|]. apply elem_of_union. by right.
        - right. exists o. split.
          { apply elem_of_app. right. by apply list_elem_of_singleton. }
          split; [done|]. apply elem_of_union. left.
          by apply elem_of_singleton. }
      split; [done|]. split.
      { intros a Ha. destruct (Hi' a Ha) as [?|(? & ? & o' & Ho' & <-)];
          [by left|]. right. split; [done|]. split; [done|].
        exists o'. split; [|done]. apply elem_of_app. by left. }
      split.
      { intros o' [Ho'| ->%list_elem_of_singleton]%elem_of_app.
        - destruct (Hall o' Ho') as [?|?]; [left|by right].
          apply elem_of_app. by left.
        - left. apply elem_of_app. right. by apply list_elem_of_singleton. }
      split; [rewrite length_app; cbn; lia|].
      rewrite size_union by set_solver. rewrite size_singleton. lia.
    + (* a peer that cannot be resolved *)
      split; [done|]. split; [done|]. split; [done|]. split.
      { intros k Hk. destruct (Hr' k Hk) as [?|(o' & Ho' & -> & Hin)];
          [by left|]. right. exists o'. split; [|done].
        apply elem_of_app. by left. }
      split.
      { intros a Ha. apply elem_of_app. left. by apply Hi. }
      split.
      { intros a [Ha| ->%list_elem_of_singleton]%elem_of_app.
        - destruct (Hi' a Ha) as [?|(? & ? & o' & Ho' & <-)]; [by left|].
          right. split; [done|]. split; [done|].
          exists o'. split; [|done]. apply elem_of_app. by left.
        - right. split; [set_solver|]. split; [done|].
          exists o. split; [|done]. apply elem_of_app. right.
          by apply list_elem_of_singleton. }
      split; [|done].
      intros o' [Ho'| ->%list_elem_of_singleton]%elem_of_app.
      * destruct (Hall o' Ho') as [?|?]; [by left|right].
        apply elem_of_app. by left.
      * right. apply elem_of_app. right. by apply list_elem_of_singleton.
Qed.

End import.

(** One run of the import action on the modelled store, when the router
    answers. *)
Lemma run_import (rest : handler RouterImport.World)
    request pk w ix rt observed :
  RouterImport.exchanges w !! pk = Some ix →
  InternetExchange.router ix = Some rt →
  truthy (Router.platform rt) = true →
  RouterImport.live w !! Router.pk rt = Some observed →
  let p := RouterImport.import_all (InternetExchange.pk ix)
             (RouterImport.networks w) observed (RouterImport.start w) in
  let r := run (RouterImport.handle rest)
             (InternetExchangeViewSet.import_peering_sessions request pk) w in
  out r = Returned
            (OK (PDict [("autonomous-system-count",
                         PInt (RouterImport.as_count p));
                        ("peering-session-count",
                         PInt (RouterImport.session_count p));
                        ("ignored-autonomous-systems",
                         PList (PInt <$> RouterImport.ignored p))])) ∧
  RouterImport.sessions (world r) = RouterImport.rows p ∧
  RouterImport.known (world r) = RouterImport.stored p.
Proof.
  intros Hix Hrt Hp Hlive. cbv zeta.
  set (p := RouterImport.import_all _ _ _ _).
  assert (Hobj : returns (RouterImport.handle rest)
                   (get_object InternetExchange_objects pk) w ix w).
  { unfold returns. cbn [RouterImport.handle].
    unfold RouterImport.get_internet_exchange. by rewrite Hix. }
  assert (Himport :
            returns (RouterImport.handle rest)
              (import_peering_sessions_from_router ix) w
              (PTuple [PInt (RouterImport.as_count p);
                       PInt (RouterImport.session_count p);
                       PList (PInt <$> RouterImport.ignored p)])
              {| RouterImport.exchanges := RouterImport.exchanges w;
                 RouterImport.known := RouterImport.stored p;
                 RouterImport.sessions := RouterImport.rows p;
                 RouterImport.networks := RouterImport.networks w;
                 RouterImport.live := RouterImport.live w |}).
  { unfold returns. cbn [RouterImport.handle].
    unfold RouterImport.importSessionsFromRouter.
    rewrite Hrt, Hp, Hlive. reflexivity. }
  rewrite (import_view_copies_triple _ request pk w ix w _ _ _ _
             Hobj Himport).
  repeat split.
Qed.

(** C9: on the modelled store, when the exchange has a router with a
    platform and the router answers, the action answers with exactly three
    entries: the count of created autonomous systems, the count of created
    sessions and the list of ignored AS numbers.  A peer AS that cannot be
    resolved does not fail the batch: the action still answers, that AS
    number is in the ignored list (and only such AS numbers are), and the
    observed sessions of every other peer are stored afterwards, next to
    what was stored before. *)
Theorem C9_import_reports_three_components (rest : handler RouterImport.World)
    request pk w ix rt observed :
  RouterImport.exchanges w !! pk = Some ix →
  InternetExchange.router ix = Some rt →
  truthy (Router.platform rt) = true →
  RouterImport.live w !! Router.pk rt = Some observed →
  let r := run (RouterImport.handle rest)
             (InternetExchangeViewSet.import_peering_sessions request pk) w in
  let key := RouterImport.key_of (InternetExchange.pk ix) in
  ∃ as_count session_count ignored,
    out r = Returned
              (OK (PDict [("autonomous-system-count", PInt as_count);
                          ("peering-session-count", PInt session_count);
                          ("ignored-autonomous-systems",
                           PList (PInt <$> ignored))])) ∧
    (∀ o, o ∈ observed →
       RouterImport.unresolvable w (RouterImport.peer_asn o) →
       key o ∉ RouterImport.sessions w →
       RouterImport.peer_asn o ∈ ignored) ∧
    (∀ asn, asn ∈ ignored →
       RouterImport.unresolvable w asn ∧
       ∃ o, o ∈ observed ∧ RouterImport.peer_asn o = asn) ∧
    (∀ o, o ∈ observed →
       ¬ RouterImport.unresolvable w (RouterImport.peer_asn o) →
       key o ∈ RouterImport.sessions (world r)) ∧
    (∀ k, k ∈ RouterImport.sessions w →
       k ∈ RouterImport.sessions (world r)) ∧
    (session_count
     = Z.of_nat (length (RouterImport.sessions (world r)))
       - Z.of_nat (length (RouterImport.sessions w)))%Z ∧
    (as_count
     = Z.of_nat (size (RouterImport.known (world r)))
       - Z.of_nat (size (RouterImport.known w)))%Z.
Proof.
  intros Hix Hrt Hp Hlive. cbv zeta.
  destruct (run_import rest request pk w ix rt observed Hix Hrt Hp Hlive)
    as (Hout & -> & ->).
  destruct (import_all_spec (InternetExchange.pk ix) (RouterImport.networks w)
              observed (RouterImport.start w))
    as (Hs & Hs' & Hr & Hr' & Hi & Hi' & Hall & Hsc & Hac).
  cbn [RouterImport.start RouterImport.stored RouterImport.rows
       RouterImport.ignored RouterImport.as_count
       RouterImport.session_count] in *.
  eexists _, _, _. split; [exact Hout|].
  split; [|split; [|split; [|split; [|split]]]].
  - intros o Ho [Hunknown Hnone] Hfresh.
    destruct (Hall o Ho) as [Hk|Hig]; [|exact Hig]. exfalso.
    destruct (Hr' _ Hk) as [?|(o' & _ & Heq & Hstored)]; [done|].
    assert (RouterImport.peer_asn o = RouterImport.peer_asn o') as Hsame
      by (unfold RouterImport.key_of in Heq; congruence).
    rewrite <- Hsame in Hstored.
    destruct (Hs' _ Hstored) as [?|[n Hn]]; [done | congruence].
  - intros asn Hasn.
    destruct (Hi' asn Hasn) as [Hnil|(? & ? & o & Ho & <-)];
      [inversion Hnil|]. split; [by split | eauto].
  - intros o Ho Hres.
    destruct (Hall o Ho) as [Hk|Hig]; [exact Hk|]. exfalso. apply Hres.
    destruct (Hi' _ Hig) as [Hnil|(? & ? & _)]; [inversion Hnil | by split].
  - exact Hr.
  - lia.
  - lia.
Qed.

Lemma C9_witness :
  RouterImport.exchanges RouterImport.installation !! 1 = Some Scenario.ix1 ∧
  RouterImport.live RouterImport.installation !! Router.pk Scenario.junos
  = Some [ {| RouterImport.peer_asn := 64501;
              RouterImport.peer_ip := "192.0.2.10" |};
           {| RouterImport.peer_asn := 64502;
              RouterImport.peer_ip := "192.0.2.20" |};
           {| RouterImport.peer_asn := 64999;
              RouterImport.peer_ip := "192.0.2.99" |} ] ∧
  ∃ as_count session_count ignored,
    out (run (RouterImport.handle RouterImport.rest)
           (InternetExchangeViewSet.import_peering_sessions Scenario.POST 1)
           RouterImport.installation)
    = Returned
        (OK (PDict [("autonomous-system-count", PInt as_count);
                    ("peering-session-count", PInt session_count);
                    ("ignored-autonomous-systems",
                     PList (PInt <$> ignored))])) ∧
    64999 ∈ ignored ∧
    ∀ asn, asn ∈ ignored →
      RouterImport.unresolvable RouterImport.installation asn.
Proof.
  split; [reflexivity|]. split; [reflexivity|].
  destruct (C9_import_reports_three_components RouterImport.rest
              Scenario.POST 1 RouterImport.installation Scenario.ix1
              Scenario.junos _ eq_refl eq_refl eq_refl eq_refl)
    as (a & s & ig & Hout & Hignored & Hig & _).
  exists a, s, ig. split; [exact Hout|]. split.
  - apply (Hignored {| RouterImport.peer_asn := 64999;
                       RouterImport.peer_ip := "192.0.2.99" |}).
    + do 2 right. left.
    + split; [|reflexivity].
      cbn. intros H. apply elem_of_singleton in H. discriminate H.
    + intros H. inversion H.
  - intros asn Hasn. exact (proj1 (Hig asn Hasn)).
Defined.

(** The import on that installation: one autonomous system and two
    sessions are created, and AS 64999 is ignored. *)
Example import_on_the_installation :
  let r := run (RouterImport.handle RouterImport.rest)
             (InternetExchangeViewSet.import_peering_sessions Scenario.POST 1)
             RouterImport.installation in
  out r = Returned
            (OK (PDict [("autonomous-system-count", PInt 1);
                        ("peering-session-count", PInt 2);
                        ("ignored-autonomous-systems",
                         PList [PInt 64999])])) ∧
  RouterImport.sessions (world r)
  = [(1, 64501, "192.0.2.10"); (1, 64502, "192.0.2.20")].
Proof. vm_compute. split; reflexivity. Qed.

(** ** Synchronisation with the registry *)

(** C5: the action always answers, and its answer reports failure exactly
    when the registry has no record for the AS number, with status 404 and
    nothing stored; when the registry has a record the answer is
    [{"status": "synchronized"}] and the stored autonomous system carries
    the refreshed fields. *)
Theorem C5_synchronize_fails_iff_no_record (rest : handler Model.World)
    request pk w a :
  Model.autonomous_systems w !! pk = Some a →
  let r := run (Model.handle rest)
             (AutonomousSystemViewSet.synchronize_with_peeringdb request pk)
             w in
  ∃ response,
    out r = Returned response ∧
    (Model.success response = false
     ↔ Model.LookupNetwork (AutonomousSystem.asn a) w = None) ∧
    (Model.LookupNetwork (AutonomousSystem.asn a) w = None →
       response = Response (PDict [("error",
                                    PStr "peeringdb record not found")])
                    HTTP_404_NOT_FOUND ∧
       world r = w) ∧
    (∀ n, Model.LookupNetwork (AutonomousSystem.asn a) w = Some n →
       response = OK (PDict [("status", PStr "synchronized")]) ∧
       Model.autonomous_systems (world r) !! AutonomousSystem.pk a
       = Some (Model.refresh n a)).
Proof.
  intros Ha. cbv zeta.
  unfold AutonomousSystemViewSet.synchronize_with_peeringdb,
    AutonomousSystemViewSet.queryset.
  normalize. rewrite run_Call. cbn [Model.handle].
  unfold Model.get_autonomous_system. rewrite Ha. cbn [out world].
  rewrite run_Call. cbn [Model.handle]. unfold Model.synchronizeWithRegistry.
  destruct (Model.LookupNetwork (AutonomousSystem.asn a) w) as [n|] eqn:Hn.
  - eexists. split; [reflexivity|]. cbn. split; [|split].
    + split; discriminate.
    + discriminate.
    + intros n' [= <-]. split; [reflexivity|]. apply lookup_insert_eq.
  - eexists. split; [reflexivity|]. cbn. split; [|split].
    + split; reflexivity.
    + intros _. split; reflexivity.
    + discriminate.
Qed.

Lemma C5_witness :
  Model.autonomous_systems Model.installation !! 1 = Some Scenario.as64501 ∧
  ∃ response,
    out (run (Model.handle Model.rest)
           (AutonomousSystemViewSet.synchronize_with_peeringdb
              Scenario.POST 1) Model.installation) = Returned response ∧
    (Model.success response = false
     ↔ Model.LookupNetwork 64501 Model.installation = None).
Proof.
  assert (Ha : Model.autonomous_systems Model.installation !! 1
               = Some Scenario.as64501) by reflexivity.
  split; [exact Ha|].
  destruct (C5_synchronize_fails_iff_no_record Model.rest Scenario.POST 1
              Model.installation Scenario.as64501 Ha)
    as (response & Hout & Hiff & _).
  exists response. split; [exact Hout | exact Hiff].
Defined.

(** ** Discovery *)

(** The second scenario of the specification: one candidate, on the shared
    exchange, disabled and idle; the presence on the exchange that is not
    configured here yields nothing. *)
Example discovery_on_the_installation :
  Model.sessions
    (world (run (Model.handle Model.rest)
              (AutonomousSystemViewSet.find_potential_ix_peering_sessions
                 Scenario.POST 1) Model.installation))
  = [ {| Model.session_exchange := 1; Model.session_asn := 64501;
         Model.session_ip := "192.0.2.10"; Model.enabled := false;
         Model.bgp_state := Model.idle |} ].
Proof. vm_compute. reflexivity. Qed.

Section discover.
Import Model.
Variable asn : Z.

(** What the loop adds goes after the rows that were there; the added rows
    are candidates for reported pairs, pairwise distinct by key, with keys
    that were not in the table; and afterwards every reported pair has its
    key in the table. *)
Lemma discover_appends pairs : ∀ rows,
  ∃ created,
    discover asn pairs rows = rows ++ created ∧
    NoDup (session_key <$> created) ∧
    (∀ c, c ∈ created →
       (session_key c ∉ session_key <$> rows) ∧
       ∃ p, p ∈ pairs ∧ c = candidate asn p) ∧
    (∀ p, p ∈ pairs →
       session_key (candidate asn p) ∈ (session_key <$> (rows ++ created))).
Proof.
  induction pairs as [|p pairs IH]; intros rows; cbn [discover].
  - exists []. rewrite app_nil_r. split; [done|]. split; [constructor|].
    split; intros x Hx; inversion Hx.
  - case_bool_decide as Hin.
    + destruct (IH rows) as (created & -> & Hnd & Hnew & Hall).
      exists created. split; [done|]. split; [done|]. split.
      * intros c Hc. destruct (Hnew c Hc) as (Hfresh & q & Hq & ->).
        split; [done|]. exists q. split; [by right|done].
      * intros q [->|Hq]%elem_of_cons; [|by apply Hall].
        rewrite fmap_app. apply elem_of_app. by left.
    + destruct (IH (rows ++ [candidate asn p]))
        as (created & -> & Hnd & Hnew & Hall).
      exists (candidate asn p :: created). rewrite <- app_assoc.
      split; [done|]. split; [|split].
      * rewrite fmap_cons. constructor; [|assumption].
        intros (c & Hk & Hc)%list_elem_of_fmap.
        destruct (Hnew c Hc) as (Hfresh & _). apply Hfresh.
        rewrite fmap_app, <- Hk. apply elem_of_app. right. by left.
      * intros c [->|Hc]%elem_of_cons.
        -- split; [done|]. exists p. split; [by left|done].
        -- destruct (Hnew c Hc) as (Hfresh & q & Hq & ->). split.
           ++ intros Hk. apply Hfresh. rewrite fmap_app.
              apply elem_of_app. by left.
           ++ exists q. split; [by right|done].
      * intros q [->|Hq]%elem_of_cons.
        -- rewrite fmap_app, fmap_cons. apply elem_of_app. right. by left.
        -- specialize (Hall q Hq). by rewrite <- app_assoc in Hall.
Qed.

(** When every reported pair already has its key in the table, the loop
    leaves the table as it is. *)
Lemma discover_nothing_new pairs rows :
  (∀ p, p ∈ pairs → session_key (candidate asn p) ∈ session_key <$> rows) →
  discover asn pairs rows = rows.
Proof.
  induction pairs as [|p pairs IH]; intros Hall; cbn [discover]; [done|].
  rewrite bool_decide_eq_true_2 by (apply Hall; by left).
  apply IH. intros q Hq. apply Hall. by right.
Qed.

Lemma discover_idempotent pairs rows :
  discover asn pairs (discover asn pairs rows) = discover asn pairs rows.
Proof.
  destruct (discover_appends pairs rows) as (created & Heq & _ & _ & Hall).
  apply discover_nothing_new. intros p Hp. rewrite Heq. by apply Hall.
Qed.

End discover.

(** One run of the discovery action on the modelled store. *)
Lemma run_find_potential (rest : handler Model.World) request pk w a :
  Model.autonomous_systems w !! pk = Some a →
  run (Model.handle rest)
    (AutonomousSystemViewSet.find_potential_ix_peering_sessions request pk) w
  = {| out := Returned (OK (PDict [("status", PStr "done")]));
       world := (Model.FindPotentialSessions a w).2;
       trace := [Event (get_object AutonomousSystem_objects pk) (inl a);
                 Event (find_potential_ix_peering_sessions a) (inl PNone)] |}.
Proof.
  intros Ha.
  unfold AutonomousSystemViewSet.find_potential_ix_peering_sessions,
    AutonomousSystemViewSet.queryset.
  normalize. rewrite run_Call. cbn [Model.handle].
  unfold Model.get_autonomous_system. rewrite Ha. reflexivity.
Qed.

(** C8: on the modelled store, the action answers [{"status": "done"}] each
    time; the first run appends candidates that are disabled, idle, for the
    AS at hand, pairwise distinct by (exchange, peer AS, peer IP) and with
    keys that no stored session had; and a second run right after the
    first changes nothing. *)
Theorem C8_discovery_is_idempotent (rest : handler Model.World)
    request pk w a :
  Model.autonomous_systems w !! pk = Some a →
  let view :=
    AutonomousSystemViewSet.find_potential_ix_peering_sessions request pk in
  let once := run (Model.handle rest) view w in
  let twice := run (Model.handle rest) view (world once) in
  out once = Returned (OK (PDict [("status", PStr "done")])) ∧
  out twice = Returned (OK (PDict [("status", PStr "done")])) ∧
  world twice = world once ∧
  (∃ created,
     Model.sessions (world once) = Model.sessions w ++ created ∧
     NoDup (Model.session_key <$> created) ∧
     ∀ c, c ∈ created →
       (Model.session_key c ∉ Model.session_key <$> Model.sessions w) ∧
       Model.session_asn c = AutonomousSystem.asn a ∧
       Model.enabled c = false ∧
       Model.bgp_state c = Model.idle) ∧
  (NoDup (Model.session_key <$> Model.sessions w) →
   NoDup (Model.session_key <$> Model.sessions (world once))).
Proof.
  intros Ha. cbv zeta.
  rewrite (run_find_potential rest request pk w a Ha). cbn [out world].
  assert (Ha' : Model.autonomous_systems (Model.FindPotentialSessions a w).2
                !! pk = Some a) by exact Ha.
  rewrite (run_find_potential rest request pk _ a Ha'). cbn [out world].
  unfold Model.FindPotentialSessions. cbn [snd Model.sessions].
  unfold Model.CommonExchanges, Model.reported.
  cbn [Model.internet_exchanges Model.presences].
  set (pairs := filter _ _).
  destruct (discover_appends (AutonomousSystem.asn a) pairs
              (Model.sessions w)) as (created & Heq & Hnd & Hnew & _).
  assert (Hfresh : ∀ c, c ∈ created →
            (Model.session_key c ∉ Model.session_key <$> Model.sessions w) ∧
            Model.session_asn c = AutonomousSystem.asn a ∧
            Model.enabled c = false ∧ Model.bgp_state c = Model.idle).
  { intros c Hc. destruct (Hnew c Hc) as (Hk & p & _ & ->). done. }
  split; [done|]. split; [done|]. split; [|split].
  - by rewrite discover_idempotent.
  - exists created. done.
  - intros Hrows. rewrite Heq, fmap_app. apply NoDup_app.
    split; [done|]. split; [|done].
    intros k Hk (c & -> & Hc)%list_elem_of_fmap.
    by destruct (Hfresh c Hc) as (Hno & _).
Qed.

Lemma C8_witness :
  Model.autonomous_systems Model.installation !! 1 = Some Scenario.as64501 ∧
  world (run (Model.handle Model.rest)
           (AutonomousSystemViewSet.find_potential_ix_peering_sessions
              Scenario.POST 1)
           (world (run (Model.handle Model.rest)
                     (AutonomousSystemViewSet.find_potential_ix_peering_sessions
                        Scenario.POST 1)
                     Model.installation)))
  = world (run (Model.handle Model.rest)
             (AutonomousSystemViewSet.find_potential_ix_peering_sessions
                Scenario.POST 1)
             Model.installation).
Proof.
  assert (Ha : Model.autonomous_systems Model.installation !! 1
               = Some Scenario.as64501) by reflexivity.
  split; [exact Ha|].
  exact (proj1 (proj2 (proj2 (C8_discovery_is_idempotent Model.rest
                                Scenario.POST 1 Model.installation
                                Scenario.as64501 Ha)))).
Defined.

(** ** What the actions check, and in which order *)

(** After a run was split on [negb b]: which [b] it was. *)
Ltac answers :=
  repeat match goal with
    | E : negb ?b = _ |- _ => destruct b; try discriminate E; clear E
    end.

(** X1: an exchange without a router cannot be configured: the action
    raises "No router available." right after fetching the exchange,
    before the permission is looked at and before anything is rendered. *)
Theorem X1_configure_router_needs_router {W} (h : handler W)
    request pk w ix w1 :
  returns h (get_object InternetExchange_objects pk) w ix w1 →
  InternetExchange.router ix = None →
  let r := run h (InternetExchangeViewSet.configure_router request pk) w in
  out r = Raised (ServiceUnavailable "No router available.") ∧
  trace r = [Event (get_object InternetExchange_objects pk) (inl ix)] ∧
  world r = w1.
Proof.
  unfold returns. intros Hobj Hrt.
  unfold InternetExchangeViewSet.configure_router,
    InternetExchangeViewSet.queryset.
  step h. rewrite Hrt. repeat split.
Qed.

Lemma X1_witness :
  returns Scenario.handle (get_object InternetExchange_objects 2)
    Scenario.calm Scenario.ix2 Scenario.calm ∧
  InternetExchange.router Scenario.ix2 = None ∧
  out (run Scenario.handle
         (InternetExchangeViewSet.configure_router
            {| method := "POST"; user := Scenario.guest |} 2) Scenario.calm)
  = Raised (ServiceUnavailable "No router available.").
Proof.
  split; [reflexivity|]. split; [reflexivity|].
  exact (proj1 (X1_configure_router_needs_router Scenario.handle
                  {| method := "POST"; user := Scenario.guest |} 2
                  Scenario.calm Scenario.ix2 Scenario.calm
                  eq_refl eq_refl)).
Defined.

(** X2: in [RouterViewSet.configure] the platform comes before the
    permission.  A router whose platform is [None] or the empty string is
    refused with "Unsupported router platform." without any permission
    check; for any other platform the permission
    "peering.deploy_configuration_router" of the requesting user is the
    next thing looked at. *)
Theorem X2_platform_before_permission {W} (h : handler W)
    request pk w rt w1 :
  returns h (get_object Router_objects pk) w rt w1 →
  let r := run h (RouterViewSet.configure request pk) w in
  (Router.platform rt = None ∨ Router.platform rt = Some "" →
     out r = Raised (ServiceUnavailable "Unsupported router platform.") ∧
     perm_checks (trace r) = []) ∧
  (∀ name, Router.platform rt = Some name → name ≠ "" →
     ∃ answer,
       perm_checks (trace r)
       = [(user request, "peering.deploy_configuration_router", answer)]).
Proof.
  unfold returns. intros Hobj.
  unfold RouterViewSet.configure, RouterViewSet.queryset. split.
  - intros Hp. step h. destruct Hp as [-> | ->]; split; reflexivity.
  - intros name Hp Hname. step h. rewrite Hp.
    destruct name as [|c name]; [done|].
    cbn [py_not truthy option_truthy string_truthy is_empty_string negb].
    run_all h; eexists; reflexivity.
Qed.

Lemma X2_witness :
  returns Scenario.handle (get_object Router_objects 2)
    Scenario.calm Scenario.bare Scenario.calm ∧
  (Router.platform Scenario.bare = None ∨
   Router.platform Scenario.bare = Some "") ∧
  out (run Scenario.handle (RouterViewSet.configure Scenario.POST 2)
         Scenario.calm)
  = Raised (ServiceUnavailable "Unsupported router platform.") ∧
  perm_checks (trace (run Scenario.handle
                        (RouterViewSet.configure Scenario.POST 2)
                        Scenario.calm)) = [].
Proof.
  assert (Hp : Router.platform Scenario.bare = None ∨
               Router.platform Scenario.bare = Some "") by (right; reflexivity).
  split; [reflexivity|]. split; [exact Hp|].
  exact (proj1 (X2_platform_before_permission Scenario.handle Scenario.POST 2
                  Scenario.calm Scenario.bare Scenario.calm eq_refl) Hp).
Defined.

(** X3: a deployment answers "forbidden" exactly when its permission check
    answered no, and then nothing was rendered and nothing was pushed. *)
Theorem X3_forbidden_iff_permission_denied {W} (h : handler W)
    view request pk w :
  view ∈ deploy_entry_points →
  let r := run h (view request pk) w in
  (out r = Returned HttpResponseForbidden
   ↔ ∃ perm, (user request, perm, inl false) ∈ perm_checks (trace r)) ∧
  (out r = Returned HttpResponseForbidden → steps (trace r) = []).
Proof.
  intros Hv.
  entry_points Hv; run_all h; answers; cbn; (split; [split|]);
    try discriminate; try reflexivity;
    try (intros [perm Hin]; elems; simplify_eq);
    try (intros _; eexists; left).
Qed.

Lemma X3_witness :
  RouterViewSet.configure ∈ deploy_entry_points ∧
  (out (run Scenario.handle
          (RouterViewSet.configure
             {| method := "POST"; user := Scenario.guest |} 1) Scenario.calm)
   = Returned HttpResponseForbidden
   ↔ ∃ perm,
       (Scenario.guest, perm, inl false)
         ∈ perm_checks (trace (run Scenario.handle
                                 (RouterViewSet.configure
                                    {| method := "POST";
                                       user := Scenario.guest |} 1)
                                 Scenario.calm))).
Proof.
  assert (Hv : RouterViewSet.configure ∈ deploy_entry_points)
    by (right; left).
  split; [exact Hv|].
  exact (proj1 (X3_forbidden_iff_permission_denied Scenario.handle
                  RouterViewSet.configure
                  {| method := "POST"; user := Scenario.guest |} 1
                  Scenario.calm Hv)).
Defined.

(** X4: nothing is rendered or pushed without a granted permission: in any
    run of a deployment that renders or pushes, the one permission check
    was for the requesting user, for the permission of that action
    ("peering.deploy_configuration_internetexchange" through an exchange,
    "peering.deploy_configuration_router" through a router), and it was
    granted. *)
Theorem X4_no_push_without_permission {W} (h : handler W) request pk w :
  (steps (trace (run h (InternetExchangeViewSet.configure_router request pk)
                   w)) ≠ [] →
   perm_checks (trace (run h (InternetExchangeViewSet.configure_router
                                request pk) w))
   = [(user request, "peering.deploy_configuration_internetexchange",
       inl true)]) ∧
  (steps (trace (run h (RouterViewSet.configure request pk) w)) ≠ [] →
   perm_checks (trace (run h (RouterViewSet.configure request pk) w))
   = [(user request, "peering.deploy_configuration_router", inl true)]).
Proof.
  split.
  - unfold InternetExchangeViewSet.configure_router.
    run_all h; answers; cbn; intros Hs; try reflexivity; by destruct Hs.
  - unfold RouterViewSet.configure.
    run_all h; answers; cbn; intros Hs; try reflexivity; by destruct Hs.
Qed.

Lemma X4_witness :
  steps (trace (run Scenario.handle
                  (InternetExchangeViewSet.configure_router Scenario.POST 1)
                  Scenario.calm)) ≠ [] ∧
  perm_checks (trace (run Scenario.handle
                        (InternetExchangeViewSet.configure_router
                           Scenario.POST 1) Scenario.calm))
  = [(Scenario.admin, "peering.deploy_configuration_internetexchange",
      inl true)].
Proof.
  assert (Hs : steps (trace (run Scenario.handle
                               (InternetExchangeViewSet.configure_router
                                  Scenario.POST 1) Scenario.calm)) ≠ [])
    by discriminate.
  split; [exact Hs|].
  exact (proj1 (X4_no_push_without_permission Scenario.handle Scenario.POST 1
                  Scenario.calm) Hs).
Defined.

(** ** What the actions never do *)

(** X5: whatever the collaborators answer, no run of one of these eight
    actions (synchronising, discovering, polling a group or an exchange,
    clearing a direct or an exchange session, listing the available peers,
    importing) contains a rendering, a push or a permission check. *)
Theorem X5_eight_actions_never_render_or_push {W} (h : handler W)
    view request pk w :
  view ∈ reading_actions →
  steps (trace (run h (view request pk) w)) = [] ∧
  perm_checks (trace (run h (view request pk) w)) = [].
Proof.
  unfold reading_actions. intros Hv. elems; subst.
  - unfold AutonomousSystemViewSet.synchronize_with_peeringdb.
    run_all h; split; reflexivity.
  - unfold AutonomousSystemViewSet.find_potential_ix_peering_sessions.
    run_all h; split; reflexivity.
  - unfold BGPGroupViewSet.poll_peering_sessions.
    run_all h; split; reflexivity.
  - unfold DirectPeeringSessionViewSet.clear.
    run_all h; split; reflexivity.
  - unfold InternetExchangeViewSet.available_peers.
    run_all h; split; reflexivity.
  - unfold InternetExchangeViewSet.import_peering_sessions.
    run_all h; split; reflexivity.
  - unfold InternetExchangeViewSet.poll_peering_sessions.
    run_all h; split; reflexivity.
  - unfold InternetExchangePeeringSessionViewSet.clear.
    run_all h; split; reflexivity.
Qed.

Lemma X5_witness :
  InternetExchangeViewSet.import_peering_sessions ∈ reading_actions ∧
  steps (trace (run Scenario.handle
                  (InternetExchangeViewSet.import_peering_sessions
                     Scenario.POST 1) Scenario.calm)) = [].
Proof.
  assert (Hv : InternetExchangeViewSet.import_peering_sessions
               ∈ reading_actions) by (do 5 right; left).
  split; [exact Hv|].
  exact (proj1 (X5_eight_actions_never_render_or_push Scenario.handle
                  InternetExchangeViewSet.import_peering_sessions
                  Scenario.POST 1 Scenario.calm Hv)).
Defined.

(** X6: a session is reset only by the two [clear] actions, and at most
    once per request: no run of a deployment resets a session, and a run of
    a [clear] action contains one reset or none. *)
Theorem X6_resets_only_in_clear {W} (h : handler W) request pk w :
  (∀ view, view ∈ deploy_entry_points →
     clears (trace (run h (view request pk) w)) = []) ∧
  (length (clears (trace (run h (DirectPeeringSessionViewSet.clear
                                   request pk) w))) ≤ 1)%nat ∧
  (length (clears (trace (run h (InternetExchangePeeringSessionViewSet.clear
                                   request pk) w))) ≤ 1)%nat.
Proof.
  split; [|split].
  - intros view Hv. entry_points Hv; run_all h; reflexivity.
  - unfold DirectPeeringSessionViewSet.clear. run_all h; cbn; lia.
  - unfold InternetExchangePeeringSessionViewSet.clear. run_all h; cbn; lia.
Qed.

Lemma X6_witness :
  InternetExchangeViewSet.configure_router ∈ deploy_entry_points ∧
  clears (trace (run Scenario.handle
                   (InternetExchangeViewSet.configure_router Scenario.POST 1)
                   Scenario.calm)) = [].
Proof.
  assert (Hv : InternetExchangeViewSet.configure_router ∈ deploy_entry_points)
    by left.
  split; [exact Hv|].
  exact (proj1 (X6_resets_only_in_clear Scenario.handle Scenario.POST 1
                  Scenario.calm) _ Hv).
Defined.

(** ** When the object cannot be fetched *)

(** X7: each of these ten actions starts by fetching its object from its
    own view set's queryset; when that fetch raises (no such primary key,
    say), the action raises the same exception and no other call is
    made. *)
Theorem X7_missing_object_stops_the_action {W} (h : handler W)
    q view request pk w e w1 :
  (q, view) ∈ fetching_actions →
  h _ (get_object q pk) w = (inr e, w1) →
  let r := run h (view request pk) w in
  out r = Raised e ∧
  trace r = [Event (get_object q pk) (inr e)] ∧
  world r = w1.
Proof.
  unfold fetching_actions. intros Hv Hobj. elems; simplify_eq.
  - unfold AutonomousSystemViewSet.synchronize_with_peeringdb,
      AutonomousSystemViewSet.queryset. step h. repeat split.
  - unfold AutonomousSystemViewSet.find_potential_ix_peering_sessions,
      AutonomousSystemViewSet.queryset. step h. repeat split.
  - unfold BGPGroupViewSet.poll_peering_sessions, BGPGroupViewSet.queryset.
    step h. repeat split.
  - unfold DirectPeeringSessionViewSet.clear,
      DirectPeeringSessionViewSet.queryset. step h. repeat split.
  - unfold InternetExchangeViewSet.available_peers,
      InternetExchangeViewSet.queryset. step h. repeat split.
  - unfold InternetExchangeViewSet.import_peering_sessions,
      InternetExchangeViewSet.queryset. step h. repeat split.
  - unfold InternetExchangeViewSet.configure_router,
      InternetExchangeViewSet.queryset. step h. repeat split.
  - unfold InternetExchangeViewSet.poll_peering_sessions,
      InternetExchangeViewSet.queryset. step h. repeat split.
  - unfold InternetExchangePeeringSessionViewSet.clear,
      InternetExchangePeeringSessionViewSet.queryset. step h. repeat split.
  - unfold RouterViewSet.configure, RouterViewSet.queryset.
    step h. repeat split.
Qed.

Lemma X7_witness :
  (Router_objects, RouterViewSet.configure) ∈ fetching_actions ∧
  Scenario.handle _ (get_object Router_objects 9) Scenario.calm
  = (inr Http404, Scenario.calm) ∧
  out (run Scenario.handle (RouterViewSet.configure Scenario.POST 9)
         Scenario.calm) = Raised Http404.
Proof.
  assert (Hv : (Router_objects, RouterViewSet.configure) ∈ fetching_actions)
    by (do 9 right; left).
  split; [exact Hv|]. split; [reflexivity|].
  exact (proj1 (X7_missing_object_stops_the_action Scenario.handle
                  Router_objects RouterViewSet.configure Scenario.POST 9
                  Scenario.calm Http404 Scenario.calm Hv eq_refl)).
Defined.

(** ** What the import may return *)

(** X8: what the import action does with a list or tuple that the model
    returns: an empty one counts as a failed import; one or two items
    raise [IndexError]; from three items on, the first three are reported
    and the others are dropped. *)
Theorem X8_import_result_by_length {W} (h : handler W)
    request pk w obj w1 result items w2 :
  returns h (get_object InternetExchange_objects pk) w obj w1 →
  returns h (import_peering_sessions_from_router obj) w1 result w2 →
  result = PTuple items ∨ result = PList items →
  let r :=
    run h (InternetExchangeViewSet.import_peering_sessions request pk) w in
  (items = [] →
     out r = Raised (ServiceUnavailable
                       "Cannot import peering sessions from router.")) ∧
  ((0 < length items < 3)%nat → out r = Raised IndexError) ∧
  (∀ a b c others, items = a :: b :: c :: others →
     out r = Returned
               (OK (PDict [("autonomous-system-count", a);
                           ("peering-session-count", b);
                           ("ignored-autonomous-systems", c)]))).
Proof.
  unfold returns. intros Hobj Himport Hresult.
  unfold InternetExchangeViewSet.import_peering_sessions,
    InternetExchangeViewSet.queryset.
  do 2 step h. cbn [out].
  destruct Hresult as [-> | ->].
  all: split; [|split];
    [ intros ->; reflexivity
    | intros Hlen;
      destruct items as [|a [|b [|c others]]]; cbn in Hlen; try lia;
      reflexivity
    | intros a b c others ->; reflexivity ].
Qed.

Lemma X8_witness :
  returns Scenario.handle (get_object InternetExchange_objects 1)
    Scenario.calm Scenario.ix1 Scenario.calm ∧
  returns Scenario.handle (import_peering_sessions_from_router Scenario.ix1)
    Scenario.calm (PTuple [PInt 1; PInt 2; PList [PInt 64999]])
    Scenario.calm ∧
  out (run Scenario.handle
         (InternetExchangeViewSet.import_peering_sessions Scenario.POST 1)
         Scenario.calm)
  = Returned
      (OK (PDict [("autonomous-system-count", PInt 1);
                  ("peering-session-count", PInt 2);
                  ("ignored-autonomous-systems", PList [PInt 64999])])).
Proof.
  split; [reflexivity|]. split; [reflexivity|].
  exact (proj2 (proj2 (X8_import_result_by_length Scenario.handle
                         Scenario.POST 1 Scenario.calm Scenario.ix1
                         Scenario.calm _ [PInt 1; PInt 2; PList [PInt 64999]]
                         Scenario.calm eq_refl eq_refl
                         (or_introl eq_refl)))
           _ _ _ [] eq_refl).
Defined.

(** ** What the push may return *)

(** X9: once the push has returned, its result alone decides the outcome
    of a deployment: a result of exactly two items gives the response built
    from them, and any other result makes the action raise ([TypeError]
    when it cannot be iterated over, [ValueError] otherwise), although the
    device has been called by then. *)
Theorem X9_outcome_follows_push_result {W} (h : handler W)
    view request pk w rt config commit result :
  view ∈ deploy_entry_points →
  Push rt config commit (inl result)
    ∈ steps (trace (run h (view request pk) w)) →
  let r := run h (view request pk) w in
  (∀ error changes, unpack2 result = inl (error, changes) →
     out r = Returned (OK (PDict [("changed", PBool (negb (truthy error)));
                                  ("changes", changes);
                                  ("error", error)]))) ∧
  (∀ e, unpack2 result = inr e →
     out r = Raised e ∧ (e = TypeError ∨ e = ValueError)).
Proof.
  intros Hv. entry_points Hv; run_all h; cbn; intros Hin; elems;
    simplify_eq.
  all: split; [intros error changes Hu | intros e' Hu];
    match goal with
    | E : unpack2 ?p = _, Hu : unpack2 ?p = _ |- _ => rewrite E in Hu
    end; simplify_eq; try reflexivity.
  all: split; [reflexivity|].
  all: match goal with E : unpack2 ?p = inr _ |- _ => revert E end;
    unfold unpack2;
    repeat match goal with
      | |- context [match ?x with _ => _ end] => destruct x
      end; intros; simplify_eq; auto.
Qed.

Lemma X9_witness :
  RouterViewSet.configure ∈ deploy_entry_points ∧
  Push Scenario.junos (PStr "router bgp 64500") true
    (inl (PTuple [PStr "cannot connect to device"; PNone]))
    ∈ steps (trace (run Scenario.handle
                      (RouterViewSet.configure Scenario.POST 1)
                      Scenario.device_down)) ∧
  out (run Scenario.handle (RouterViewSet.configure Scenario.POST 1)
         Scenario.device_down)
  = Returned (OK (PDict [("changed",
                          PBool (negb (truthy
                                         (PStr "cannot connect to device"))));
                         ("changes", PNone);
                         ("error", PStr "cannot connect to device")])).
Proof.
  assert (Hv : RouterViewSet.configure ∈ deploy_entry_points)
    by (right; left).
  assert (Hp : Push Scenario.junos (PStr "router bgp 64500") true
                 (inl (PTuple [PStr "cannot connect to device"; PNone]))
               ∈ steps (trace (run Scenario.handle
                                 (RouterViewSet.configure Scenario.POST 1)
                                 Scenario.device_down)))
    by (right; left).
  split; [exact Hv|]. split; [exact Hp|].
  exact (proj1 (X9_outcome_follows_push_result Scenario.handle
                  RouterViewSet.configure Scenario.POST 1
                  Scenario.device_down _ _ _ _ Hv Hp) _ _ eq_refl).
Defined.

(** ** Showing the configuration of a router *)

(** X10: [configuration] looks at the permission before it looks for the
    router: without "peering.view_configuration_router" the answer is
    "forbidden" and the permission check is the only call made, so that
    whether the router exists plays no part. *)
Theorem X10_configuration_forbidden_first {W} (h : handler W)
    request pk w w1 :
  returns h (has_perm (user request) "peering.view_configuration_router")
    w false w1 →
  let r := run h (Other.RouterViewSet.configuration request pk) w in
  out r = Returned HttpResponseForbidden ∧
  trace r = [Event (has_perm (user request)
                      "peering.view_configuration_router") (inl false)] ∧
  world r = w1.
Proof.
  unfold returns. intros Hperm. unfold Other.RouterViewSet.configuration.
  step h. repeat split.
Qed.

Lemma X10_witness :
  returns Scenario.handle
    (has_perm Scenario.guest "peering.view_configuration_router")
    Scenario.calm false Scenario.calm ∧
  out (run Scenario.handle
         (Other.RouterViewSet.configuration
            {| method := "GET"; user := Scenario.guest |} 9) Scenario.calm)
  = Returned HttpResponseForbidden.
Proof.
  split; [reflexivity|].
  exact (proj1 (X10_configuration_forbidden_first Scenario.handle
                  {| method := "GET"; user := Scenario.guest |} 9
                  Scenario.calm Scenario.calm eq_refl)).
Defined.

(** X11: [configuration] never reaches the device, whatever the
    collaborators answer: no run of it pushes a configuration or resets a
    session, and it renders at most once. *)
Theorem X11_configuration_never_pushes {W} (h : handler W) request pk w :
  let r := run h (Other.RouterViewSet.configuration request pk) w in
  pushes (trace r) = [] ∧ clears (trace r) = [] ∧
  (length (steps (trace r)) ≤ 1)%nat.
Proof.
  unfold Other.RouterViewSet.configuration.
  run_all h; cbn; repeat split; lia.
Qed.

(** X12: what [configuration] shows is what [configure] pushes.  For a
    user holding both permissions, when fetching the router and checking
    permissions leave the world as it is and rendering returns a text, the
    first action answers with that text under "configuration" and the
    second pushes that very text to that router, committing unless the
    method is safe.  The first needs no platform on the router; the second
    does. *)
Theorem X12_shown_is_what_is_pushed {W} (h : handler W)
    request pk w rt config w' :
  returns h (has_perm (user request) "peering.view_configuration_router")
    w true w →
  returns h (has_perm (user request) "peering.deploy_configuration_router")
    w true w →
  returns h (get_object Router_objects pk) w rt w →
  returns h (generate_configuration (RouterTarget rt)) w config w' →
  out (run h (Other.RouterViewSet.configuration request pk) w)
  = Returned (OK (PDict [("configuration", config)])) ∧
  (truthy (Router.platform rt) = true →
   pushes (trace (run h (RouterViewSet.configure request pk) w))
   = [(rt, config, negb (py_in (method request) SAFE_METHODS))]) ∧
  (truthy (Router.platform rt) = false →
   pushes (trace (run h (RouterViewSet.configure request pk) w)) = []).
Proof.
  unfold returns. intros Hview Hdeploy Hobj Hgen. split; [|split].
  - unfold Other.RouterViewSet.configuration, Other.RouterViewSet.queryset.
    run_all h. reflexivity.
  - intros Hp. unfold RouterViewSet.configure, RouterViewSet.queryset.
    step h. unfold py_not. rewrite Hp. run_all h; reflexivity.
  - intros Hp. unfold RouterViewSet.configure, RouterViewSet.queryset.
    step h. unfold py_not. rewrite Hp. reflexivity.
Qed.

Lemma X12_witness :
  returns Scenario.handle (get_object Router_objects 1)
    Scenario.calm Scenario.junos Scenario.calm ∧
  returns Scenario.handle
    (generate_configuration (RouterTarget Scenario.junos))
    Scenario.calm (PStr "router bgp 64500") Scenario.calm ∧
  out (run Scenario.handle
         (Other.RouterViewSet.configuration Scenario.GET 1) Scenario.calm)
  = Returned (OK (PDict [("configuration", PStr "router bgp 64500")])).
Proof.
  split; [reflexivity|]. split; [reflexivity|].
  exact (proj1 (X12_shown_is_what_is_pushed Scenario.handle Scenario.GET 1
                  Scenario.calm Scenario.junos (PStr "router bgp 64500")
                  Scenario.calm eq_refl eq_refl eq_refl eq_refl)).
Defined.

(** ** The other actions *)

Lemma more_run_Do {W A X} (h : more_handler W) (c : more X)
    (k : X → free more A) w :
  more_run h (Do c k) w =
  match h X c w with
  | (inl x, w') =>
      let r := more_run h (k x) w' in
      {| more_out := more_out r; more_world := more_world r;
         more_trace := MoreEvent c (inl x) :: more_trace r |}
  | (inr e, w') =>
      {| more_out := Raised e; more_world := w';
         more_trace := [MoreEvent c (inr e)] |}
  end.
Proof. reflexivity. Qed.

Ltac more_normalize :=
  cbn [mbind free_mbind free_bind perform mret free_mret raise_or_return negb]
    in *.

(** One step of a run of one of the other actions, as [step] above. *)
Ltac more_step h :=
  more_normalize;
  match goal with
  | |- context [more_run h (Do ?c ?k) ?w] =>
      rewrite (more_run_Do h c k w);
      first
        [ match goal with H : h _ c w = _ |- _ => rewrite H end
        | let E := fresh "E" in destruct (h _ c w) as [[?|?] ?] eqn:E ];
      cbn [more_out more_world more_trace]
  | |- context [more_run h (if ?b then _ else _) ?w] =>
      let E := fresh "E" in destruct b eqn:E
  | |- context [raise_or_return ?r] =>
      first
        [ match goal with H : r = _ |- _ => rewrite H end
        | let E := fresh "E" in destruct r as [?|?] eqn:E ]
  end.

Ltac more_run_all h :=
  repeat (more_step h); cbn [more_run more_out more_world more_trace] in *.

(** A dictionary without the key, or a body that is no dictionary. *)
Lemma subscript_raises v key e :
  subscript v key = inr e → e = KeyError ∨ e = TypeError.
Proof.
  unfold subscript. destruct v; try (intros [= <-]; by right).
  destruct (dict_get key (PDict d)); intros [= <-]. by left.
Qed.

(** X13: the connection test raises "Cannot connect to router using
    NAPALM." exactly when what the test returned is false, and answers
    [{"status": "success"}] otherwise; the router is fetched and tested,
    and nothing else is called, whatever its platform. *)
Theorem X13_connection_test_contract {W} (h : more_handler W)
    request pk w rt w1 success w2 :
  h _ (core (get_object Router_objects pk)) w = (inl rt, w1) →
  h _ (test_napalm_connection rt) w1 = (inl success, w2) →
  let r := more_run h (Other.RouterViewSet.test_napalm_connection request pk)
             w in
  (more_out r = Raised (ServiceUnavailable
                          "Cannot connect to router using NAPALM.")
   ↔ truthy success = false) ∧
  (truthy success = true →
   more_out r = Returned (OK (PDict [("status", PStr "success")]))) ∧
  more_trace r = [MoreEvent (core (get_object Router_objects pk)) (inl rt);
                  MoreEvent (test_napalm_connection rt) (inl success)].
Proof.
  intros Hobj Htest.
  unfold Other.RouterViewSet.test_napalm_connection,
    Other.RouterViewSet.queryset.
  more_run_all h; unfold py_not in *;
    destruct (truthy success); cbn in *; try discriminate;
    (split; [split|split]); congruence.
Qed.

Lemma X13_witness :
  Trial.handle _ (core (get_object Router_objects 2)) []
  = (inl Scenario.bare, []) ∧
  Trial.handle _ (test_napalm_connection Scenario.bare) []
  = (inl (PBool false), []) ∧
  (more_out (more_run Trial.handle
               (Other.RouterViewSet.test_napalm_connection
                  (Trial.posting PNone) 2) [])
   = Raised (ServiceUnavailable "Cannot connect to router using NAPALM.")
   ↔ truthy (PBool false) = false).
Proof.
  split; [reflexivity|]. split; [reflexivity|].
  exact (proj1 (X13_connection_test_contract Trial.handle
                  (Trial.posting PNone) 2 [] Scenario.bare [] (PBool false) []
                  eq_refl eq_refl)).
Defined.

(** X14: encrypting a password needs the platform in the request: when
    [request.data["platform"]] raises (a body without that key raises
    [KeyError], a body that is no dictionary [TypeError]), either action
    raises that exception after fetching the session, and no encryption is
    attempted. *)
Theorem X14_encrypt_needs_platform {W} (h : more_handler W)
    q view request pk w obj w1 e :
  (q, view) ∈ encrypting_actions →
  h _ (get_object_with_password q pk) w = (inl obj, w1) →
  subscript (data request) "platform" = inr e →
  let r := more_run h (view request pk) w in
  more_out r = Raised e ∧
  (e = KeyError ∨ e = TypeError) ∧
  encryptions (more_trace r) = [] ∧
  more_world r = w1.
Proof.
  unfold encrypting_actions. intros Hv Hobj Hsub.
  pose proof (subscript_raises _ _ _ Hsub) as He.
  elems; simplify_eq.
  - unfold Other.DirectPeeringSessionViewSet.encrypt_password,
      Other.DirectPeeringSessionViewSet.queryset.
    more_run_all h. repeat split; assumption.
  - unfold Other.InternetExchangePeeringSessionViewSet.encrypt_password,
      Other.InternetExchangePeeringSessionViewSet.queryset.
    more_run_all h. repeat split; assumption.
Qed.

Lemma X14_witness :
  (DirectPeeringSession_objects,
   Other.DirectPeeringSessionViewSet.encrypt_password) ∈ encrypting_actions ∧
  subscript (data (Trial.posting (PDict [("vendor", PStr "junos")])))
    "platform" = inr KeyError ∧
  more_out (more_run Trial.handle
              (Other.DirectPeeringSessionViewSet.encrypt_password
                 (Trial.posting (PDict [("vendor", PStr "junos")])) 1) [])
  = Raised KeyError.
Proof.
  assert (Hv : (DirectPeeringSession_objects,
                Other.DirectPeeringSessionViewSet.encrypt_password)
               ∈ encrypting_actions) by left.
  split; [exact Hv|]. split; [reflexivity|].
  exact (proj1 (X14_encrypt_needs_platform Trial.handle
                  DirectPeeringSession_objects _
                  (Trial.posting (PDict [("vendor", PStr "junos")])) 1 []
                  _ [] KeyError Hv eq_refl eq_refl)).
Defined.

(** X15: the encrypted password in the answer is read from the session as
    fetched again after the encryption, not from the instance that was
    encrypted, and what [encrypt_password] itself returns is not used; the
    platform passed on is the one in the request. *)
Theorem X15_encrypted_password_is_fetched_again {W} (h : more_handler W)
    q view request pk w obj w1 platform ignored w2 obj' w3 :
  (q, view) ∈ encrypting_actions →
  h _ (get_object_with_password q pk) w = (inl obj, w1) →
  subscript (data request) "platform" = inl platform →
  h _ (encrypt_password obj platform) w1 = (inl ignored, w2) →
  h _ (get_object_with_password q pk) w2 = (inl obj', w3) →
  let r := more_run h (view request pk) w in
  more_out r
  = Returned (OK (PDict [("encrypted_password", encrypted_password obj')])) ∧
  encryptions (more_trace r) = [platform] ∧
  more_world r = w3.
Proof.
  unfold encrypting_actions. intros Hv Hobj Hsub Henc Hobj'.
  elems; simplify_eq.
  - unfold Other.DirectPeeringSessionViewSet.encrypt_password,
      Other.DirectPeeringSessionViewSet.queryset.
    more_run_all h. repeat split.
  - unfold Other.InternetExchangePeeringSessionViewSet.encrypt_password,
      Other.InternetExchangePeeringSessionViewSet.queryset.
    more_run_all h. repeat split.
Qed.

Lemma X15_witness :
  Trial.handle _ (get_object_with_password DirectPeeringSession_objects 1) []
  = (inl {| instance_of := Scenario.direct1; encrypted_password := PNone |},
     []) ∧
  more_out (more_run Trial.handle
              (Other.DirectPeeringSessionViewSet.encrypt_password
                 (Trial.posting (PDict [("platform", PStr "junos")])) 1) [])
  = Returned (OK (PDict [("encrypted_password", PStr "$9$encrypted")])).
Proof.
  assert (Hv : (DirectPeeringSession_objects,
                Other.DirectPeeringSessionViewSet.encrypt_password)
               ∈ encrypting_actions) by left.
  split; [reflexivity|].
  exact (proj1 (X15_encrypted_password_is_fetched_again Trial.handle
                  DirectPeeringSession_objects
                  Other.DirectPeeringSessionViewSet.encrypt_password
                  (Trial.posting (PDict [("platform", PStr "junos")])) 1 []
                  {| instance_of := Scenario.direct1;
                     encrypted_password := PNone |} []
                  (PStr "junos") PNone [(1, PStr "$9$encrypted")]
                  {| instance_of := Scenario.direct1;
                     encrypted_password := PStr "$9$encrypted" |}
                  [(1, PStr "$9$encrypted")]
                  Hv eq_refl eq_refl eq_refl eq_refl)).
Defined.

(** X16: the e-mail action reads the template's key from the request
    before it calls anything: when [request.data["template"]] raises, or
    when [int] does not accept what is found there, the action raises that
    exception and no call is made at all, so that neither the template nor
    the autonomous system is looked up. *)
Theorem X16_email_needs_template_key {W} (h : more_handler W)
    int_of_string request pk w e :
  subscript (data request) "template" = inr e ∨
  (∃ raw, subscript (data request) "template" = inl raw ∧
          py_int int_of_string raw = inr e) →
  let r := more_run h (Other.AutonomousSystemViewSet.generate_email
                         int_of_string request pk) w in
  more_out r = Raised e ∧ more_trace r = [] ∧ more_world r = w.
Proof.
  intros [Hsub | (raw & Hsub & Hint)];
    unfold Other.AutonomousSystemViewSet.generate_email;
    more_run_all h; repeat split.
Qed.

Lemma X16_witness :
  (∃ raw, subscript (data (Trial.posting (PDict [("template", PStr "one")])))
            "template" = inl raw ∧
          py_int Trial.int_of_string raw = inr ValueError) ∧
  more_out (more_run Trial.handle
              (Other.AutonomousSystemViewSet.generate_email
                 Trial.int_of_string
                 (Trial.posting (PDict [("template", PStr "one")])) 1) [])
  = Raised ValueError.
Proof.
  assert (H : ∃ raw,
            subscript (data (Trial.posting (PDict [("template", PStr "one")])))
              "template" = inl raw ∧
            py_int Trial.int_of_string raw = inr ValueError)
    by (exists (PStr "one"); split; reflexivity).
  split; [exact H|].
  exact (proj1 (X16_email_needs_template_key Trial.handle
                  Trial.int_of_string
                  (Trial.posting (PDict [("template", PStr "one")])) 1 []
                  ValueError (or_intror H))).
Defined.

(** X17: the e-mail action looks the template up before the autonomous
    system: with a key that [int] accepts, a template lookup that raises
    ends the action with that exception before the autonomous system is
    fetched; and when the template, the autonomous system and the
    generation all return, the answer carries the generated e-mail. *)
Theorem X17_email_template_first {W} (h : more_handler W)
    int_of_string request pk w raw template_pk :
  subscript (data request) "template" = inl raw →
  py_int int_of_string raw = inl template_pk →
  let r := more_run h (Other.AutonomousSystemViewSet.generate_email
                         int_of_string request pk) w in
  (∀ e w1, h _ (Template_objects_get template_pk) w = (inr e, w1) →
     more_out r = Raised e ∧
     more_trace r = [MoreEvent (Template_objects_get template_pk) (inr e)]) ∧
  (∀ template w1 obj w2 email w3,
     h _ (Template_objects_get template_pk) w = (inl template, w1) →
     h _ (core (get_object AutonomousSystem_objects pk)) w1 = (inl obj, w2) →
     h _ (generate_email obj template) w2 = (inl email, w3) →
     more_out r = Returned (OK (PDict [("email", email)]))).
Proof.
  intros Hsub Hint. cbv zeta. split.
  - intros e w1 Htemplate.
    unfold Other.AutonomousSystemViewSet.generate_email.
    more_run_all h. split; reflexivity.
  - intros template w1 obj w2 email w3 Htemplate Hobj Hemail.
    unfold Other.AutonomousSystemViewSet.generate_email,
      Other.AutonomousSystemViewSet.queryset.
    more_run_all h. reflexivity.
Qed.

Lemma X17_witness :
  subscript (data (Trial.posting (PDict [("template", PStr "7")])))
    "template" = inl (PStr "7") ∧
  py_int Trial.int_of_string (PStr "7") = inl 7 ∧
  Trial.handle _ (Template_objects_get 7) []
  = (inr (Error "DoesNotExist"), []) ∧
  more_out (more_run Trial.handle
              (Other.AutonomousSystemViewSet.generate_email
                 Trial.int_of_string
                 (Trial.posting (PDict [("template", PStr "7")])) 9) [])
  = Raised (Error "DoesNotExist").
Proof.
  split; [reflexivity|]. split; [reflexivity|]. split; [reflexivity|].
  exact (proj1 (proj1 (X17_email_template_first Trial.handle
                         Trial.int_of_string
                         (Trial.posting (PDict [("template", PStr "7")])) 9
                         [] (PStr "7") 7 eq_refl eq_refl)
                  (Error "DoesNotExist") [] eq_refl)).
Defined.

(** X18: none of these six actions renders or pushes a configuration,
    resets a session or looks at a permission, whatever the collaborators
    answer; and a request encrypts at most once. *)
Theorem X18_other_actions_leave_the_device_alone {W} (h : more_handler W)
    int_of_string view request pk w :
  view ∈ other_actions int_of_string →
  let t := more_trace (more_run h (view request pk) w) in
  steps (core_events t) = [] ∧
  clears (core_events t) = [] ∧
  perm_checks (core_events t) = [] ∧
  (length (encryptions t) ≤ 1)%nat.
Proof.
  unfold other_actions. intros Hv. elems; subst.
  - unfold Other.AutonomousSystemViewSet.get_irr_as_set_prefixes.
    more_run_all h; cbn; repeat split; lia.
  - unfold Other.AutonomousSystemViewSet.common_internet_exchanges.
    more_run_all h; cbn; repeat split; lia.
  - unfold Other.AutonomousSystemViewSet.generate_email.
    more_run_all h; cbn; repeat split; lia.
  - unfold Other.DirectPeeringSessionViewSet.encrypt_password.
    more_run_all h; cbn; repeat split; lia.
  - unfold Other.InternetExchangePeeringSessionViewSet.encrypt_password.
    more_run_all h; cbn; repeat split; lia.
  - unfold Other.RouterViewSet.test_napalm_connection.
    more_run_all h; cbn; repeat split; lia.
Qed.

Lemma X18_witness :
  Other.RouterViewSet.test_napalm_connection
    ∈ other_actions Trial.int_of_string ∧
  steps (core_events
           (more_trace (more_run Trial.handle
                          (Other.RouterViewSet.test_napalm_connection
                             (Trial.posting PNone) 1) []))) = [].
Proof.
  assert (Hv : Other.RouterViewSet.test_napalm_connection
               ∈ other_actions Trial.int_of_string)
    by (do 5 right; left).
  split; [exact Hv|].
  exact (proj1 (X18_other_actions_leave_the_device_alone Trial.handle
                  Trial.int_of_string _ (Trial.posting PNone) 1 [] Hv)).
Defined.

(** The other actions on the small installation. *)
Example email_for_a_known_template :
  more_out (more_run Trial.handle
              (Other.AutonomousSystemViewSet.generate_email
                 Trial.int_of_string
                 (Trial.posting (PDict [("template", PInt 1)])) 1) [])
  = Returned (OK (PDict [("email", PStr "Dear peer")])).
Proof. reflexivity. Qed.

Example common_exchanges_of_an_autonomous_system :
  more_out (more_run Trial.handle
              (Other.AutonomousSystemViewSet.common_internet_exchanges
                 (Trial.posting PNone) 1) [])
  = Returned (OK (PDict [("common-internet-exchanges", PList [PInt 1])])).
Proof. reflexivity. Qed.

Example encrypting_for_another_platform_stores_nothing :
  more_out (more_run Trial.handle
              (Other.InternetExchangePeeringSessionViewSet.encrypt_password
                 (Trial.posting (PDict [("platform", PStr "ios")])) 1) [])
  = Returned (OK (PDict [("encrypted_password", PNone)])).
Proof. reflexivity. Qed.
